(** * Maxon EPOS serial driver (epos.c): protocol state machine and
      write-object frame

    A shallow embedding of the driver's module-level variables, of the
    functions [serial_callback], [send_opcode], [read_begin_ack],
    [send_payload] and [write_object], and of the helpers they take from
    the kernel headers, followed by the properties of the frame layout and
    of the state machine. *)

From Stdlib Require Import ZArith List Bool Lia.
From stdpp Require Import base list.
From Stdlib Require String Ascii.
Import ListNotations.
Import String.StringSyntax.
Delimit Scope string_scope with string.
Local Open Scope Z_scope.

(** ** Module definitions *)

(** [#define MAX_PAYLOAD 14]; the serial FIFO size is tied to it. *)
Definition MAX_PAYLOAD : Z := 14.

(** Driver state machine codes. *)
Inductive driver_state_t : Type :=
  | READY
  | SENDING_OPCODE
  | WAITING_BEGIN_ACK
  | SENDING_DATA
  | WAITING_END_ACK
  | WAITING_RESPONSE_LEN
  | WAITING_RESPONSE_DATA
  | SENDING_RESPONSE_ACK.

(** Return codes. *)
Inductive write_status_t : Type :=
  | SUCCESS
  | SERIAL_BUF_FULL
  | DRIVER_BUSY
  | UNEXPECTED_ERROR.

(** The two comparisons the driver makes on these codes:
    [state != READY] and [stat != SUCCESS]. *)
Definition is_READY (s : driver_state_t) : bool :=
  match s with READY => true | _ => false end.

Definition is_SUCCESS (stat : write_status_t) : bool :=
  match stat with SUCCESS => true | _ => false end.

(** Driver variables: the five [static] objects of the module.  Bytes
    ([u8]) are integers in [0, 256); the two arrays have [MAX_PAYLOAD]
    cells. *)
Record driver : Type := Driver {
  state : driver_state_t;
  outbound_payload : list Z;
  inbound_payload : list Z;
  outbound_payload_len : Z;
  inbound_payload_len : Z
}.

(** Static storage is zero-initialised: [READY] is the enumerator 0. *)
Definition driver_init : driver :=
  Driver READY (replicate 14 0) (replicate 14 0) 0 0.

(** ** Kernel helpers *)

(** Modelled from the spec: the CRC-CCITT routines of [<linux/crc-ccitt.h>]
    are not under src/.  The spec names the checksum as CRC-CCITT with the
    standard CCITT table (the V.41 variant), computed incrementally from a
    seed; this is the table of the bit-reversed polynomial 0x8408, entry
    [i] being [i] pushed through eight shift steps (see
    [crc_ccitt_table_gen]). *)
Definition crc_ccitt_table : list Z := [
    0x0000; 0x1189; 0x2312; 0x329b; 0x4624; 0x57ad; 0x6536; 0x74bf;
    0x8c48; 0x9dc1; 0xaf5a; 0xbed3; 0xca6c; 0xdbe5; 0xe97e; 0xf8f7;
    0x1081; 0x0108; 0x3393; 0x221a; 0x56a5; 0x472c; 0x75b7; 0x643e;
    0x9cc9; 0x8d40; 0xbfdb; 0xae52; 0xdaed; 0xcb64; 0xf9ff; 0xe876;
    0x2102; 0x308b; 0x0210; 0x1399; 0x6726; 0x76af; 0x4434; 0x55bd;
    0xad4a; 0xbcc3; 0x8e58; 0x9fd1; 0xeb6e; 0xfae7; 0xc87c; 0xd9f5;
    0x3183; 0x200a; 0x1291; 0x0318; 0x77a7; 0x662e; 0x54b5; 0x453c;
    0xbdcb; 0xac42; 0x9ed9; 0x8f50; 0xfbef; 0xea66; 0xd8fd; 0xc974;
    0x4204; 0x538d; 0x6116; 0x709f; 0x0420; 0x15a9; 0x2732; 0x36bb;
    0xce4c; 0xdfc5; 0xed5e; 0xfcd7; 0x8868; 0x99e1; 0xab7a; 0xbaf3;
    0x5285; 0x430c; 0x7197; 0x601e; 0x14a1; 0x0528; 0x37b3; 0x263a;
    0xdecd; 0xcf44; 0xfddf; 0xec56; 0x98e9; 0x8960; 0xbbfb; 0xaa72;
    0x6306; 0x728f; 0x4014; 0x519d; 0x2522; 0x34ab; 0x0630; 0x17b9;
    0xef4e; 0xfec7; 0xcc5c; 0xddd5; 0xa96a; 0xb8e3; 0x8a78; 0x9bf1;
    0x7387; 0x620e; 0x5095; 0x411c; 0x35a3; 0x242a; 0x16b1; 0x0738;
    0xffcf; 0xee46; 0xdcdd; 0xcd54; 0xb9eb; 0xa862; 0x9af9; 0x8b70;
    0x8408; 0x9581; 0xa71a; 0xb693; 0xc22c; 0xd3a5; 0xe13e; 0xf0b7;
    0x0840; 0x19c9; 0x2b52; 0x3adb; 0x4e64; 0x5fed; 0x6d76; 0x7cff;
    0x9489; 0x8500; 0xb79b; 0xa612; 0xd2ad; 0xc324; 0xf1bf; 0xe036;
    0x18c1; 0x0948; 0x3bd3; 0x2a5a; 0x5ee5; 0x4f6c; 0x7df7; 0x6c7e;
    0xa50a; 0xb483; 0x8618; 0x9791; 0xe32e; 0xf2a7; 0xc03c; 0xd1b5;
    0x2942; 0x38cb; 0x0a50; 0x1bd9; 0x6f66; 0x7eef; 0x4c74; 0x5dfd;
    0xb58b; 0xa402; 0x9699; 0x8710; 0xf3af; 0xe226; 0xd0bd; 0xc134;
    0x39c3; 0x284a; 0x1ad1; 0x0b58; 0x7fe7; 0x6e6e; 0x5cf5; 0x4d7c;
    0xc60c; 0xd785; 0xe51e; 0xf497; 0x8028; 0x91a1; 0xa33a; 0xb2b3;
    0x4a44; 0x5bcd; 0x6956; 0x78df; 0x0c60; 0x1de9; 0x2f72; 0x3efb;
    0xd68d; 0xc704; 0xf59f; 0xe416; 0x90a9; 0x8120; 0xb3bb; 0xa232;
    0x5ac5; 0x4b4c; 0x79d7; 0x685e; 0x1ce1; 0x0d68; 0x3ff3; 0x2e7a;
    0xe70e; 0xf687; 0xc41c; 0xd595; 0xa12a; 0xb0a3; 0x8238; 0x93b1;
    0x6b46; 0x7acf; 0x4854; 0x59dd; 0x2d62; 0x3ceb; 0x0e70; 0x1ff9;
    0xf78f; 0xe606; 0xd49d; 0xc514; 0xb1ab; 0xa022; 0x92b9; 0x8330;
    0x7bc7; 0x6a4e; 0x58d5; 0x495c; 0x3de3; 0x2c6a; 0x1ef1; 0x0f78
  ].

(** One shift step of the reflected CRC with polynomial 0x8408. *)
Definition crc_shift (crc : Z) : Z :=
  if Z.testbit crc 0 then Z.lxor (Z.shiftr crc 1) 0x8408 else Z.shiftr crc 1.

(** Conversion to [u16]. *)
Definition u16 (x : Z) : Z := Z.land x 0xffff.

(** Modelled from the spec: [crc_ccitt_byte] of [<linux/crc-ccitt.h>], the
    incremental step of the checksum,
    [(crc >> 8) ^ crc_ccitt_table[(crc ^ c) & 0xff]], returned as [u16]. *)
Definition crc_ccitt_byte (crc c : Z) : Z :=
  u16 (Z.lxor (Z.shiftr crc 8)
         (nth (Z.to_nat (Z.land (Z.lxor crc c) 0xff)) crc_ccitt_table 0)).

(** Modelled from the spec: [crc_ccitt] of [<linux/crc-ccitt.h>], the
    checksum continued from [crc] over [len] bytes of [buffer]:
    [while (len--) crc = crc_ccitt_byte(crc, *buffer++);]. *)
Fixpoint crc_ccitt (crc : Z) (buffer : list Z) (len : nat) : Z :=
  match len, buffer with
  | S len', c :: buffer' => crc_ccitt (crc_ccitt_byte crc c) buffer' len'
  | _, _ => crc
  end.

(** Byte order of the host.  [__cpu_to_le16] and [__cpu_to_le32] are the
    identity on a little-endian host and a byte swap on a big-endian one;
    the [bytes] member of a union over a word reads the word's bytes in
    memory order. *)
Inductive byte_order : Type := LittleEndian | BigEndian.

Definition swab16 (x : Z) : Z :=
  Z.lor (Z.shiftl (Z.land x 0xff) 8) (Z.land (Z.shiftr x 8) 0xff).

Definition swab32 (x : Z) : Z :=
  Z.lor (Z.lor (Z.shiftl (Z.land x 0xff) 24)
               (Z.shiftl (Z.land (Z.shiftr x 8) 0xff) 16))
        (Z.lor (Z.shiftl (Z.land (Z.shiftr x 16) 0xff) 8)
               (Z.land (Z.shiftr x 24) 0xff)).

Definition cpu_to_le16 (host : byte_order) (x : Z) : Z :=
  match host with LittleEndian => x | BigEndian => swab16 x end.

Definition cpu_to_le32 (host : byte_order) (x : Z) : Z :=
  match host with LittleEndian => x | BigEndian => swab32 x end.

(** [union { u16 word; u8 bytes[2]; }]: the bytes of [word] as stored. *)
Definition union16_bytes (host : byte_order) (word : Z) : list Z :=
  let b0 := Z.land word 0xff in
  let b1 := Z.land (Z.shiftr word 8) 0xff in
  match host with LittleEndian => [b0; b1] | BigEndian => [b1; b0] end.

(** [union { u32 dword; u8 bytes[4]; }]: the bytes of [dword] as stored. *)
Definition union32_bytes (host : byte_order) (dword : Z) : list Z :=
  let b0 := Z.land dword 0xff in
  let b1 := Z.land (Z.shiftr dword 8) 0xff in
  let b2 := Z.land (Z.shiftr dword 16) 0xff in
  let b3 := Z.land (Z.shiftr dword 24) 0xff in
  match host with
  | LittleEndian => [b0; b1; b2; b3]
  | BigEndian => [b3; b2; b1; b0]
  end.

(** ** The serial port *)

(** The rtai_serial module is an external collaborator: its three entry
    points used by the driver are taken as an interface over an abstract
    port state [T], which may carry anything the hardware will answer.
    [rt_spwrite msg msg_size] returns the number of bytes not written
    (a negative [msg_size] asks for all or nothing; [-ENODEV] is a negative
    return); [rt_spread] is used for one byte only, and yields the byte it
    stores into the one-cell buffer [ack]; [rt_spset_thrs] sets the
    callback thresholds and its return value is ignored by the driver. *)
Class Serial (T : Type) : Type := {
  rt_spwrite : list Z -> Z -> T -> Z * T;
  rt_spread : Z -> T -> Z * T;
  rt_spset_thrs : Z -> Z -> T -> T
}.

(** The driver's variables together with the port they talk to. *)
Record world (T : Type) : Type := World {
  drv : driver;
  port : T
}.
Arguments World {T} _ _.
Arguments drv {T} _.
Arguments port {T} _.

(** ** State threading

    Every function of the driver reads and writes the module variables and
    calls into the port; [M T A] is such a computation returning an [A]. *)
Definition M (T A : Type) : Type := world T -> A * world T.

Definition ret {T A : Type} (a : A) : M T A := fun w => (a, w).

Definition bind {T A B : Type} (m : M T A) (k : A -> M T B) : M T B :=
  fun w => let (a, w') := m w in k a w'.

Declare Scope driver_scope.
Delimit Scope driver_scope with driver.
Notation "'let*' x ':=' m 'in' k" := (bind m (fun x => k))
  (at level 10, x name, m at level 100, k at level 200) : driver_scope.
Notation "m ';;' k" := (bind m (fun _ => k))
  (at level 100, k at level 200, right associativity) : driver_scope.
Local Open Scope driver_scope.

(** The world a computation leaves, and the value it returns. *)
Definition exec {T A : Type} (m : M T A) (w : world T) : world T := snd (m w).
Definition result {T A : Type} (m : M T A) (w : world T) : A := fst (m w).

Section Driver.
Context {T : Type} `{Serial T}.

(** Byte order of the machine the module is built for. *)
Variable host : byte_order.

(** *** Access to the module variables *)

Definition read_var {A : Type} (f : driver -> A) : M T A :=
  fun w => (f (drv w), w).

Definition write_var (f : driver -> driver) : M T unit :=
  fun w => (tt, World (f (drv w)) (port w)).

Definition set_state (s : driver_state_t) : M T unit :=
  write_var (fun d =>
    Driver s (outbound_payload d) (inbound_payload d)
           (outbound_payload_len d) (inbound_payload_len d)).

Definition set_outbound_payload (f : list Z -> list Z) : M T unit :=
  write_var (fun d =>
    Driver (state d) (f (outbound_payload d)) (inbound_payload d)
           (outbound_payload_len d) (inbound_payload_len d)).

Definition set_outbound_payload_len (n : Z) : M T unit :=
  write_var (fun d =>
    Driver (state d) (outbound_payload d) (inbound_payload d)
           n (inbound_payload_len d)).

(** [outbound_payload[i] = v]. *)
Definition store (i : nat) (v : Z) : M T unit :=
  set_outbound_payload (fun buf => <[i:=v]> buf).

(** [memcpy(outbound_payload + off, src, n)]. *)
Definition memcpy (off : nat) (src : list Z) (n : nat) : M T unit :=
  set_outbound_payload (fun buf => list_inserts off (take n src) buf).

(** *** Calls into the port *)

Definition spwrite (msg : list Z) (msg_size : Z) : M T Z :=
  fun w => let (r, p) := rt_spwrite msg msg_size (port w) in
           (r, World (drv w) p).

Definition spread (msg_size : Z) : M T Z :=
  fun w => let (c, p) := rt_spread msg_size (port w) in
           (c, World (drv w) p).

Definition spset_thrs (rxthrs txthrs : Z) : M T unit :=
  fun w => (tt, World (drv w) (rt_spset_thrs rxthrs txthrs (port w))).

(** *** The driver *)

(** [static write_status_t send_opcode(u8 opcode)] *)
Definition send_opcode (opcode : Z) : M T write_status_t :=
  let* num_not_written := spwrite [opcode] 1 in
  if num_not_written =? 0 then
    set_state SENDING_OPCODE ;;
    ret SUCCESS
  else if num_not_written =? 1 then ret SERIAL_BUF_FULL
  else ret UNEXPECTED_ERROR.

(** [static void send_payload()] *)
Definition send_payload : M T unit :=
  let* len := read_var outbound_payload_len in
  spset_thrs 1 len ;;
  let* buf := read_var outbound_payload in
  let* num_not_written := spwrite buf (- len) in
  if negb (num_not_written =? 0) then set_state READY
  else set_state SENDING_DATA.

(** [static void read_begin_ack()]; ['O'] is 79.  The byte is compared
    as a [char]: whatever the signedness of [char], a byte equals ['O']
    exactly when its value is 79. *)
Definition read_begin_ack : M T unit :=
  let* ack := spread 1 in
  if ack =? 79 then send_payload
  else set_state READY.

(** [static void serial_callback(int rxavail, int txfree)] *)
Definition serial_callback (rxavail txfree : Z) : M T unit :=
  let* st := read_var state in
  match st with
  | READY => ret tt
  | SENDING_OPCODE =>
      if txfree =? MAX_PAYLOAD then set_state WAITING_BEGIN_ACK else ret tt
  | WAITING_BEGIN_ACK =>
      if rxavail =? 1 then read_begin_ack else ret tt
  | SENDING_DATA =>
      if txfree =? MAX_PAYLOAD then set_state WAITING_END_ACK else ret tt
  | WAITING_END_ACK => ret tt
  | WAITING_RESPONSE_LEN => ret tt
  | WAITING_RESPONSE_DATA => ret tt
  | SENDING_RESPONSE_ACK => ret tt
  end.

(** [static write_status_t write_object(u16 index, u8 subindex,
    u8 nodeid, u32 data)] *)
Definition write_object (index subindex nodeid data : Z)
  : M T write_status_t :=
  let index_union := cpu_to_le16 host index in
  let data_union := cpu_to_le32 host data in
  let opcode := 0x11 in
  let* st := read_var state in
  if negb (is_READY st) then ret DRIVER_BUSY
  else
    let* stat := send_opcode opcode in
    if negb (is_SUCCESS stat) then ret stat
    else
      store 0 3 ;;
      memcpy 1 (union16_bytes host index_union) 2 ;;
      store 3 subindex ;;
      store 4 nodeid ;;
      memcpy 5 (union32_bytes host data_union) 4 ;;
      let* buf := read_var outbound_payload in
      let crc := crc_ccitt_byte 0 opcode in
      let crc := cpu_to_le16 host (crc_ccitt crc buf 9) in
      memcpy 9 (union16_bytes host crc) 2 ;;
      set_outbound_payload_len 11 ;;
      ret SUCCESS.

(** *** Runs

    The driver is entered either by a caller of [write_object] or by the
    port's callback.  A caller gets the returned status; the callback
    returns [void]. *)
Inductive event : Type :=
  | WriteObject (index subindex nodeid data : Z)
  | SerialCallback (rxavail txfree : Z).

Definition deliver (e : event) : M T (option write_status_t) :=
  match e with
  | WriteObject index subindex nodeid data =>
      let* stat := write_object index subindex nodeid data in
      ret (Some stat)
  | SerialCallback rxavail txfree =>
      serial_callback rxavail txfree ;;
      ret None
  end.

Fixpoint run (evs : list event) : M T (list (option write_status_t)) :=
  match evs with
  | [] => ret []
  | e :: evs' =>
      let* r := deliver e in
      let* rs := run evs' in
      ret (r :: rs)
  end.

End Driver.

(** The states the code enters: those of the write handshake. *)
Definition write_path (s : driver_state_t) : bool :=
  match s with
  | READY | SENDING_OPCODE | WAITING_BEGIN_ACK | SENDING_DATA
  | WAITING_END_ACK => true
  | WAITING_RESPONSE_LEN | WAITING_RESPONSE_DATA | SENDING_RESPONSE_ACK =>
      false
  end.

(** The payload cells as [write_object] leaves them before the checksum is
    appended, and with the checksum: the stores of its body, collected. *)
Definition filled (host : byte_order) (index subindex nodeid data : Z)
    (buf : list Z) : list Z :=
  list_inserts 5 (take 4 (union32_bytes host (cpu_to_le32 host data)))
    (<[4%nat:=nodeid]>
       (<[3%nat:=subindex]>
          (list_inserts 1
             (take 2 (union16_bytes host (cpu_to_le16 host index)))
             (<[0%nat:=3]> buf)))).

Definition framed (host : byte_order) (index subindex nodeid data : Z)
    (buf : list Z) : list Z :=
  let body := filled host index subindex nodeid data buf in
  list_inserts 9
    (take 2 (union16_bytes host
               (cpu_to_le16 host (crc_ccitt (crc_ccitt_byte 0 0x11) body 9))))
    body.

(** ** A scripted port

    A port for concrete runs: it answers the successive [rt_spwrite] calls
    from [answers] (0 when the script is exhausted), hands out the bytes of
    [incoming] one per read, and records every buffer submitted for
    writing with the size asked for, and every threshold setting. *)
Record script : Type := Script {
  answers : list Z;
  incoming : list Z;
  submitted : list (list Z * Z);
  thresholds : list (Z * Z)
}.

#[global] Instance script_serial : Serial script := {
  rt_spwrite msg msg_size s :=
    let s' rest :=
      Script rest (incoming s)
        (submitted s ++ [(take (Z.to_nat (Z.abs msg_size)) msg, msg_size)])
        (thresholds s) in
    match answers s with
    | a :: rest => (a, s' rest)
    | [] => (0, s' [])
    end;
  rt_spread msg_size s :=
    match incoming s with
    | c :: rest => (c, Script (answers s) rest (submitted s) (thresholds s))
    | [] => (0, s)
    end;
  rt_spset_thrs rxthrs txthrs s :=
    Script (answers s) (incoming s) (submitted s)
           (thresholds s ++ [(rxthrs, txthrs)])
}.

(** The module just loaded, on a port that takes every write and will
    deliver the bytes [rx]. *)
Definition loaded (rx : list Z) : world script :=
  World driver_init (Script [] rx [] []).

(** The module just loaded, on a port whose transmit buffer is full. *)
Definition loaded_full : world script :=
  World driver_init (Script [1] [] [] []).

(** The write of index 0x2031, subindex 0, node 1, data 100, followed by
    the three callbacks of a handshake. *)
Definition handshake : list event :=
  [WriteObject 0x2031 0 1 100;
   SerialCallback 0 14;
   SerialCallback 1 14;
   SerialCallback 0 14].

(** The same write with the opcode gone out, the device's answer [c]
    waiting in the port. *)
Definition awaiting_begin_ack (c : Z) : world script :=
  exec (run LittleEndian (take 2 handshake)) (loaded [c]).

(** The write once its payload has gone out too. *)
Definition awaiting_end_ack : world script :=
  exec (run LittleEndian handshake) (loaded [79]).

(** The same write with the opcode gone out and the answer ['O'] waiting,
    on a port that will take none of the eleven payload bytes. *)
Definition awaiting_begin_ack_refusing : world script :=
  exec (run LittleEndian (take 2 handshake))
    (World driver_init (Script [0; 11] [79] [] [])).

(** ** Module load and unload *)

(** Module parameters: [ser_port] (default 0) and [baud] (default 38400). *)
Record module_params : Type := ModuleParams {
  ser_port : Z;
  baud : Z
}.

Definition default_params : module_params := ModuleParams 0 38400.

(** Serial communication parameters fixed by the module. *)
Definition STARTBITS : Z := 1.
Definition DATABITS : Z := 8.
Definition STOPBITS : Z := 1.

(** The constants the module takes from the kernel and rtai_serial
    headers, which are not under src/: the three error numbers it tests
    for, and the values of [PARITY], [HARDCTRL] and [SERIAL_FIFO_SIZE]. *)
Record header_consts : Type := HeaderConsts {
  ENODEV : Z;
  EINVAL : Z;
  EADDRINUSE : Z;
  RT_SP_PARITY_NONE : Z;
  RT_SP_NO_HAND_SHAKE : Z;
  RT_SP_FIFO_SIZE_14 : Z
}.

(** The rtai_serial entry points of module load and unload, over the same
    abstract port state: [rt_spopen tty baud numbits stopbits parity mode
    fifotrig], [rt_spset_callback_fun tty rxthrs txthrs] (the function
    registered is always [serial_callback]) and [rt_spclose tty], each
    returning its [int] status. *)
Class SerialSetup (T : Type) : Type := {
  rt_spopen : Z -> Z -> Z -> Z -> Z -> Z -> Z -> T -> Z * T;
  rt_spset_callback_fun : Z -> Z -> Z -> T -> Z * T;
  rt_spclose : Z -> T -> Z * T
}.

(** What load and unload act on: the port and the kernel log. *)
Record kernel (T : Type) : Type := Kernel {
  serial : T;
  printk_log : list String.string
}.
Arguments Kernel {T} _ _.
Arguments serial {T} _.
Arguments printk_log {T} _.

Definition newline : String.string :=
  String.String (Ascii.ascii_of_nat 10) String.EmptyString.

(** [static void errmsg(char *msg)]:
    [printk("EPOS driver: %s\n", msg)]. *)
Definition errmsg {T : Type} (msg : String.string) (k : kernel T) : kernel T :=
  Kernel (serial k)
    (printk_log k ++
     [String.append "EPOS driver: "%string (String.append msg newline)]).

Section Lifecycle.
Context {T : Type} `{SerialSetup T}.
Variable hdr : header_consts.
Variable prm : module_params.

(** [static int __init epos_init()].  The two [switch] statements have no
    [default]: a status that is none of the listed cases falls through to
    the code after the switch. *)
Definition epos_init (k : kernel T) : Z * kernel T :=
  let (err, p1) :=
    rt_spopen (ser_port prm) (baud prm) DATABITS STOPBITS
      (RT_SP_PARITY_NONE hdr) (RT_SP_NO_HAND_SHAKE hdr)
      (RT_SP_FIFO_SIZE_14 hdr) (serial k) in
  let k1 := Kernel p1 (printk_log k) in
  if err =? - ENODEV hdr then
    (err, errmsg "Serial port number rejected by rtai_serial."%string k1)
  else if err =? - EINVAL hdr then
    (err, errmsg "Invalid parameters for opening serial port."%string k1)
  else if err =? - EADDRINUSE hdr then
    (err, errmsg "Serial port already in use."%string k1)
  else
    let (err, p2) := rt_spset_callback_fun (ser_port prm) 1 1 p1 in
    let k2 := Kernel p2 (printk_log k) in
    if err =? - EINVAL hdr then
      let k3 :=
        errmsg "Invalid parameters for setting serial port callback."%string
          k2 in
      let (_, p3) := rt_spclose (ser_port prm) (serial k3) in
      (err, Kernel p3 (printk_log k3))
    else (0, k2).

(** [static void __exit epos_cleanup()] *)
Definition epos_cleanup (k : kernel T) : kernel T :=
  let (err, p1) := rt_spclose (ser_port prm) (serial k) in
  let k1 := Kernel p1 (printk_log k) in
  if err =? - ENODEV hdr then
    errmsg
      "Error closing serial: rtai_serial claims port does not exist."%string
      k1
  else k1.

End Lifecycle.

(** The error numbers of Linux and the rtai_serial values of the three
    port settings, for concrete runs. *)
Definition linux_consts : header_consts :=
  HeaderConsts 19 22 98 0x00 0x00 0xC0.

(** A port for concrete loads: it answers [rt_spopen],
    [rt_spset_callback_fun] and [rt_spclose] with fixed statuses and counts
    how often it was opened and closed. *)
Record setup_script : Type := SetupScript {
  open_status : Z;
  callback_status : Z;
  close_status : Z;
  opened : nat;
  closed : nat
}.

#[global] Instance setup_script_serial : SerialSetup setup_script := {
  rt_spopen tty bd numbits stopbits parity mode fifotrig s :=
    (open_status s,
     SetupScript (open_status s) (callback_status s) (close_status s)
       (S (opened s)) (closed s));
  rt_spset_callback_fun tty rxthrs txthrs s := (callback_status s, s);
  rt_spclose tty s :=
    (close_status s,
     SetupScript (open_status s) (callback_status s) (close_status s)
       (opened s) (S (closed s)))
}.

(** A transition of the state machine the code can make in one step. *)
Definition edge (s s' : driver_state_t) : bool :=
  match s, s' with
  | READY, SENDING_OPCODE
  | SENDING_OPCODE, WAITING_BEGIN_ACK
  | WAITING_BEGIN_ACK, SENDING_DATA
  | WAITING_BEGIN_ACK, READY
  | SENDING_DATA, WAITING_END_ACK => true
  | _, _ => false
  end.

(** What a caller of [write_object] is told while the driver is busy, and
    what a callback tells (nothing). *)
Definition busy_answer (e : event) : option write_status_t :=
  match e with
  | WriteObject _ _ _ _ => Some DRIVER_BUSY
  | SerialCallback _ _ => None
  end.

(** * Properties *)

(** ** Bytes and byte order *)

Lemma land_ff_mod (x : Z) : Z.land x 0xff = x mod 256.
Proof. change 0xff with (Z.ones 8). now rewrite Z.land_ones by lia. Qed.

Lemma land_ffff_mod (x : Z) : Z.land x 0xffff = x mod 65536.
Proof. change 0xffff with (Z.ones 16). now rewrite Z.land_ones by lia. Qed.

Lemma byte_at (x k : Z) :
  0 <= k -> Z.land (Z.shiftr x k) 0xff = (x / 2 ^ k) mod 256.
Proof. intros Hk. now rewrite land_ff_mod, Z.shiftr_div_pow2. Qed.

(** Bit-by-bit comparison of words built from masks and shifts. *)
Ltac bitwise :=
  apply Z.bits_inj'; intros n Hn;
  change 0xff with (Z.ones 8);
  repeat first
    [ rewrite Z.land_spec | rewrite Z.lor_spec
    | rewrite Z.shiftr_spec by lia | rewrite Z.shiftl_spec by lia
    | rewrite Z.testbit_ones by lia ];
  repeat match goal with
    | |- context [?a <=? ?b] => destruct (Z.leb_spec a b)
    | |- context [?a <? ?b] => destruct (Z.ltb_spec a b)
    end;
  try lia;
  rewrite ?andb_true_r, ?andb_false_r, ?orb_false_r, ?orb_false_l,
    ?andb_true_l, ?andb_false_l;
  rewrite ?Z.shiftr_spec by lia;
  rewrite ?Z.testbit_neg_r by lia;
  try reflexivity;
  try (f_equal; lia).

Lemma swab16_lo (x : Z) : Z.land (swab16 x) 0xff = Z.land (Z.shiftr x 8) 0xff.
Proof. unfold swab16. bitwise. Qed.

Lemma swab16_hi (x : Z) : Z.land (Z.shiftr (swab16 x) 8) 0xff = Z.land x 0xff.
Proof. unfold swab16. bitwise. Qed.

Lemma swab32_b0 (x : Z) :
  Z.land (swab32 x) 0xff = Z.land (Z.shiftr x 24) 0xff.
Proof. unfold swab32. bitwise. Qed.

Lemma swab32_b1 (x : Z) :
  Z.land (Z.shiftr (swab32 x) 8) 0xff = Z.land (Z.shiftr x 16) 0xff.
Proof. unfold swab32. bitwise. Qed.

Lemma swab32_b2 (x : Z) :
  Z.land (Z.shiftr (swab32 x) 16) 0xff = Z.land (Z.shiftr x 8) 0xff.
Proof. unfold swab32. bitwise. Qed.

Lemma swab32_b3 (x : Z) :
  Z.land (Z.shiftr (swab32 x) 24) 0xff = Z.land x 0xff.
Proof. unfold swab32. bitwise. Qed.

(** Whatever the host, the bytes a union shows of a word converted with
    [__cpu_to_le16] are the word's bytes from the least significant one. *)
Lemma union16_le (host : byte_order) (x : Z) :
  union16_bytes host (cpu_to_le16 host x) = [x mod 256; (x / 2 ^ 8) mod 256].
Proof.
  destruct host; unfold union16_bytes, cpu_to_le16.
  - now rewrite land_ff_mod, byte_at by lia.
  - now rewrite swab16_hi, swab16_lo, land_ff_mod, byte_at by lia.
Qed.

Lemma union32_le (host : byte_order) (x : Z) :
  union32_bytes host (cpu_to_le32 host x) =
  [x mod 256; (x / 2 ^ 8) mod 256; (x / 2 ^ 16) mod 256; (x / 2 ^ 24) mod 256].
Proof.
  destruct host; unfold union32_bytes, cpu_to_le32.
  - now rewrite land_ff_mod, !byte_at by lia.
  - now rewrite swab32_b0, swab32_b1, swab32_b2, swab32_b3,
      land_ff_mod, !byte_at by lia.
Qed.

(** ** The checksum *)

(** The table is the one generated by the reflected polynomial 0x8408. *)
Lemma crc_ccitt_table_gen :
  crc_ccitt_table =
  map (fun i => Nat.iter 8 crc_shift (Z.of_nat i)) (seq 0 256).
Proof. vm_compute. reflexivity. Qed.

Lemma u16_range (x : Z) : 0 <= u16 x < 65536.
Proof. unfold u16. rewrite land_ffff_mod. apply Z.mod_pos_bound. lia. Qed.

Lemma crc_ccitt_byte_range (crc c : Z) : 0 <= crc_ccitt_byte crc c < 65536.
Proof. apply u16_range. Qed.

Lemma crc_ccitt_range (buffer : list Z) :
  forall (len : nat) (crc : Z),
    0 <= crc < 65536 -> 0 <= crc_ccitt crc buffer len < 65536.
Proof.
  induction buffer as [|c buffer IH]; intros [|len] crc Hcrc; simpl; auto.
  apply IH, crc_ccitt_byte_range.
Qed.

(** Only the first [len] bytes of the buffer are read. *)
Lemma crc_ccitt_take (buffer : list Z) :
  forall (len : nat) (crc : Z),
    crc_ccitt crc (take len buffer) len = crc_ccitt crc buffer len.
Proof.
  induction buffer as [|c buffer IH]; intros [|len] crc; simpl; auto.
Qed.

(** Starting from the opcode byte is the same as running the checksum
    over the opcode followed by the payload. *)
Lemma crc_ccitt_opcode (opcode : Z) (buffer : list Z) (len : nat) :
  crc_ccitt (crc_ccitt_byte 0 opcode) buffer len =
  crc_ccitt 0 (opcode :: take len buffer) (S len).
Proof. simpl. now rewrite crc_ccitt_take. Qed.

#[local] Arguments crc_ccitt_byte : simpl never.

(** ** Unfolding the driver *)

Ltac run_driver :=
  unfold exec, result, deliver, write_object, serial_callback,
    read_begin_ack, send_payload, send_opcode, store, memcpy,
    set_outbound_payload, set_outbound_payload_len, set_state,
    spwrite, spread, spset_thrs, read_var, write_var, bind, ret in *;
  simpl in *.

Lemma is_READY_true (s : driver_state_t) : is_READY s = true <-> s = READY.
Proof. destruct s; simpl; split; congruence. Qed.

Lemma is_READY_false (s : driver_state_t) : is_READY s = false <-> s <> READY.
Proof. destruct s; simpl; split; congruence. Qed.

(** A call taken in: the opcode byte went out, the state is
    [SENDING_OPCODE] and the frame is in the outbound buffer. *)
Lemma write_object_accepted {T : Type} `{Serial T} (host : byte_order)
    (index subindex nodeid data : Z) (w : world T) :
  state (drv w) = READY ->
  fst (rt_spwrite [0x11] 1 (port w)) = 0 ->
  write_object host index subindex nodeid data w =
  (SUCCESS,
   World (Driver SENDING_OPCODE
            (framed host index subindex nodeid data (outbound_payload (drv w)))
            (inbound_payload (drv w)) 11 (inbound_payload_len (drv w)))
         (snd (rt_spwrite [0x11] 1 (port w)))).
Proof.
  intros Hst Hwr. destruct w as [d p]. run_driver.
  rewrite Hst. simpl.
  destruct (rt_spwrite [17] 1 p) as [r p']. simpl in *. subst r.
  reflexivity.
Qed.

(** A call returns [SUCCESS] only from [READY] and only when the port
    took the opcode byte. *)
Lemma write_object_success_inv {T : Type} `{Serial T} (host : byte_order)
    (index subindex nodeid data : Z) (w : world T) :
  result (write_object host index subindex nodeid data) w = SUCCESS ->
  state (drv w) = READY /\ fst (rt_spwrite [0x11] 1 (port w)) = 0.
Proof.
  destruct w as [d p]. run_driver.
  destruct (is_READY (state d)) eqn:Hrdy; simpl.
  - intros Hres. split; [now apply is_READY_true|].
    destruct (rt_spwrite [17] 1 p) as [r p']. simpl in *.
    destruct (Z.eqb_spec r 0); [assumption|].
    destruct (r =? 1); simpl in Hres; discriminate.
  - discriminate.
Qed.

(** ** The write-object frame *)

(** C1. When [write_object] is taken in (returns [SUCCESS]), the outbound
    payload buffer holds an 11-byte frame: cell 0 is 3, cells 1-2 are the
    index from its low byte, cell 3 the subindex, cell 4 the node id,
    cells 5-8 the data from its low byte, cells 9-10 the low and the high
    byte of the CRC-CCITT, from seed 0, of the opcode 0x11 followed by the
    first nine cells; the recorded length is 11.  This holds on either
    byte order of the host, and every cell of the frame is a byte. *)
Theorem write_object_frame {T : Type} `{Serial T} (host : byte_order)
    (index subindex nodeid data : Z) (w : world T) :
  0 <= index < 2 ^ 16 ->
  0 <= subindex < 2 ^ 8 ->
  0 <= nodeid < 2 ^ 8 ->
  0 <= data < 2 ^ 32 ->
  length (outbound_payload (drv w)) = Z.to_nat MAX_PAYLOAD ->
  result (write_object host index subindex nodeid data) w = SUCCESS ->
  let d' := drv (exec (write_object host index subindex nodeid data) w) in
  let crc := crc_ccitt 0 (0x11 :: take 9 (outbound_payload d')) 10 in
  take 11 (outbound_payload d') =
    [3; index mod 256; index / 256; subindex; nodeid;
     data mod 256; (data / 2 ^ 8) mod 256; (data / 2 ^ 16) mod 256;
     data / 2 ^ 24; crc mod 256; crc / 256] /\
  Forall (fun b => 0 <= b < 256) (take 11 (outbound_payload d')) /\
  outbound_payload_len d' = 11.
Proof.
  intros Hindex Hsub Hnode Hdata Hlen Hres.
  destruct (write_object_success_inv _ _ _ _ _ _ Hres) as [Hst Hwr].
  unfold exec. rewrite write_object_accepted by assumption.
  cbn [snd drv outbound_payload outbound_payload_len].
  destruct (outbound_payload (drv w))
    as [|c0 [|c1 [|c2 [|c3 [|c4 [|c5 [|c6 [|c7 [|c8 [|c9 [|c10 [|c11
        [|c12 [|c13 [|c14 rest]]]]]]]]]]]]]]]; try discriminate Hlen.
  unfold framed, filled. rewrite !union16_le, union32_le.
  cbn [take list_inserts insert list_insert crc_ccitt].
  set (crc := crc_ccitt_byte _ _).
  assert (Hcrc : 0 <= crc < 65536) by apply crc_ccitt_byte_range.
  change (2 ^ 8) with 256 in *. change (2 ^ 16) with 65536 in *.
  change (2 ^ 24) with 16777216 in *. change (2 ^ 32) with 4294967296 in *.
  assert (Hi : 0 <= index / 256 < 256)
    by (split; [apply Z.div_pos | apply Z.div_lt_upper_bound]; lia).
  assert (Hd : 0 <= data / 16777216 < 256)
    by (split; [apply Z.div_pos | apply Z.div_lt_upper_bound]; lia).
  assert (Hc : 0 <= crc / 256 < 256)
    by (split; [apply Z.div_pos | apply Z.div_lt_upper_bound]; lia).
  rewrite (Z.mod_small (index / 256)), (Z.mod_small (data / 16777216)),
    (Z.mod_small (crc / 256)) by assumption.
  split; [reflexivity|].
  split; [|reflexivity].
  repeat constructor; try lia; try (apply Z.mod_pos_bound; lia).
Qed.

Lemma write_object_frame_witness :
  let d' := drv (exec (write_object BigEndian 0x2031 0 1 100) (loaded [])) in
  let crc := crc_ccitt 0 (0x11 :: take 9 (outbound_payload d')) 10 in
  take 11 (outbound_payload d') =
    [3; 0x2031 mod 256; 0x2031 / 256; 0; 1;
     100 mod 256; (100 / 2 ^ 8) mod 256; (100 / 2 ^ 16) mod 256;
     100 / 2 ^ 24; crc mod 256; crc / 256] /\
  Forall (fun b => 0 <= b < 256) (take 11 (outbound_payload d')) /\
  outbound_payload_len d' = 11.
Proof.
  apply (write_object_frame BigEndian 0x2031 0 1 100 (loaded []));
    first [lia | reflexivity].
Defined.

(** The frame of the scripted write, cell by cell. *)
Example write_object_frame_0x2031 :
  outbound_payload
    (drv (exec (write_object LittleEndian 0x2031 0 1 100) (loaded []))) =
  [3; 0x31; 0x20; 0; 1; 100; 0; 0; 0; 0x8a; 0xc7; 0; 0; 0].
Proof. vm_compute. reflexivity. Qed.

(** ** Admission *)

(** C4. Called in any state other than [READY], [write_object] returns
    [DRIVER_BUSY] and changes nothing: the state, both buffers and both
    recorded lengths are as before, and the port is not called. *)
Theorem write_object_busy {T : Type} `{Serial T} (host : byte_order)
    (index subindex nodeid data : Z) (w : world T) :
  state (drv w) <> READY ->
  write_object host index subindex nodeid data w = (DRIVER_BUSY, w).
Proof.
  intros Hbusy. apply is_READY_false in Hbusy.
  run_driver. now rewrite Hbusy.
Qed.

Lemma write_object_busy_witness :
  write_object LittleEndian 0x2031 0 1 100 (awaiting_begin_ack 79) =
  (DRIVER_BUSY, awaiting_begin_ack 79).
Proof.
  apply (write_object_busy LittleEndian 0x2031 0 1 100 (awaiting_begin_ack 79)).
  vm_compute. discriminate.
Defined.

(** C5. Called in [READY], when the port takes none of the one opcode
    byte ([rt_spwrite] answers 1), [write_object] returns
    [SERIAL_BUF_FULL]; the state stays [READY] and the module variables
    are untouched. *)
Theorem write_object_serial_buf_full {T : Type} `{Serial T}
    (host : byte_order) (index subindex nodeid data : Z) (w : world T) :
  state (drv w) = READY ->
  fst (rt_spwrite [0x11] 1 (port w)) = 1 ->
  result (write_object host index subindex nodeid data) w = SERIAL_BUF_FULL /\
  state (drv (exec (write_object host index subindex nodeid data) w)) = READY /\
  drv (exec (write_object host index subindex nodeid data) w) = drv w.
Proof.
  intros Hst Hwr. destruct w as [d p]. run_driver.
  rewrite Hst. simpl.
  destruct (rt_spwrite [17] 1 p) as [r p']. simpl in *. subst r.
  simpl. auto.
Qed.

Lemma write_object_serial_buf_full_witness :
  result (write_object LittleEndian 0x2031 0 1 100) loaded_full
    = SERIAL_BUF_FULL /\
  state (drv (exec (write_object LittleEndian 0x2031 0 1 100) loaded_full))
    = READY /\
  drv (exec (write_object LittleEndian 0x2031 0 1 100) loaded_full)
    = drv loaded_full.
Proof.
  apply (write_object_serial_buf_full LittleEndian 0x2031 0 1 100 loaded_full);
    reflexivity.
Defined.

(** ** The callback *)

(** C10. A callback delivered in [READY] returns at once: the state, the
    buffers, the recorded lengths and the port are as before. *)
Theorem serial_callback_ready {T : Type} `{Serial T}
    (rxavail txfree : Z) (w : world T) :
  state (drv w) = READY ->
  serial_callback rxavail txfree w = (tt, w).
Proof. intros Hst. run_driver. now rewrite Hst. Qed.

Lemma serial_callback_ready_witness :
  serial_callback 1 14 (loaded [79]) = (tt, loaded [79]).
Proof. apply (serial_callback_ready 1 14 (loaded [79])). reflexivity. Defined.

(** C7. A callback delivered in [SENDING_OPCODE] moves the state to
    [WAITING_BEGIN_ACK] exactly when [txfree] is the full capacity 14, and
    otherwise changes nothing; in [SENDING_DATA] it moves the state to
    [WAITING_END_ACK] under the same condition. *)
Theorem serial_callback_sending {T : Type} `{Serial T}
    (rxavail txfree : Z) (w : world T) :
  let w' := exec (serial_callback rxavail txfree) w in
  (state (drv w) = SENDING_OPCODE ->
     (state (drv w') = WAITING_BEGIN_ACK <-> txfree = 14) /\
     (txfree <> 14 -> w' = w)) /\
  (state (drv w) = SENDING_DATA ->
     (state (drv w') = WAITING_END_ACK <-> txfree = 14) /\
     (txfree <> 14 -> w' = w)).
Proof.
  destruct w as [d p]. run_driver.
  split; intros Hst; rewrite Hst; unfold MAX_PAYLOAD;
    destruct (Z.eqb_spec txfree 14) as [Heq|Hne]; simpl;
    intuition congruence.
Qed.

Lemma serial_callback_sending_witness :
  ((state (drv (exec (serial_callback 0 14)
                  (exec (run LittleEndian (take 1 handshake)) (loaded [79]))))
      = WAITING_BEGIN_ACK <-> 14 = 14) /\
   (14 <> 14 ->
    exec (serial_callback 0 14)
      (exec (run LittleEndian (take 1 handshake)) (loaded [79]))
    = exec (run LittleEndian (take 1 handshake)) (loaded [79]))) /\
  ((state (drv (exec (serial_callback 0 14)
                  (exec (run LittleEndian (take 3 handshake)) (loaded [79]))))
      = WAITING_END_ACK <-> 14 = 14) /\
   (14 <> 14 ->
    exec (serial_callback 0 14)
      (exec (run LittleEndian (take 3 handshake)) (loaded [79]))
    = exec (run LittleEndian (take 3 handshake)) (loaded [79]))).
Proof.
  split.
  - apply (serial_callback_sending 0 14
             (exec (run LittleEndian (take 1 handshake)) (loaded [79]))).
    reflexivity.
  - apply (serial_callback_sending 0 14
             (exec (run LittleEndian (take 3 handshake)) (loaded [79]))).
    reflexivity.
Defined.

(** C9. [send_payload] leaves the state [SENDING_DATA] when the port took
    the whole payload (zero bytes not written) and [READY] on any other
    count; no other state results, and the buffers and lengths are not
    touched. *)
Theorem send_payload_state {T : Type} `{Serial T} (w : world T) :
  let len := outbound_payload_len (drv w) in
  let num_not_written :=
    fst (rt_spwrite (outbound_payload (drv w)) (- len)
           (rt_spset_thrs 1 len (port w))) in
  let d' := drv (exec send_payload w) in
  state d' = (if num_not_written =? 0 then SENDING_DATA else READY) /\
  (state d' = SENDING_DATA \/ state d' = READY) /\
  outbound_payload d' = outbound_payload (drv w) /\
  inbound_payload d' = inbound_payload (drv w) /\
  outbound_payload_len d' = outbound_payload_len (drv w) /\
  inbound_payload_len d' = inbound_payload_len (drv w).
Proof.
  destruct w as [d p]. run_driver.
  destruct (rt_spwrite _ _ _) as [r p']. simpl.
  destruct (r =? 0); simpl; auto 10.
Qed.

(** A port that takes only part of the payload: the driver falls back to
    [READY]. *)
Example send_payload_partial :
  state (drv (exec send_payload
                (World (Driver WAITING_BEGIN_ACK (replicate 14 7)
                          (replicate 14 0) 11 0)
                       (Script [4] [] [] [])))) = READY.
Proof. reflexivity. Qed.

(** ** The begin acknowledgment *)

(** C6 (as the code has it). On a callback in [WAITING_BEGIN_ACK] with
    one byte receivable the byte is read.  If it is ['O'] (79) the payload
    is submitted: the thresholds are set to (1, length) and the outbound
    buffer is handed to [rt_spwrite] with the negated length; the
    transaction goes on to [SENDING_DATA] exactly when the port took it
    all, and falls back to [READY] when it did not.  Any other byte stops
    the transaction: the port sees no call after the read and the state is
    [READY], not [SENDING_DATA]. *)
Theorem begin_ack_decoded {T : Type} `{Serial T} (txfree : Z) (w : world T) :
  state (drv w) = WAITING_BEGIN_ACK ->
  let ack := fst (rt_spread 1 (port w)) in
  let p1 := snd (rt_spread 1 (port w)) in
  let len := outbound_payload_len (drv w) in
  let wr := rt_spwrite (outbound_payload (drv w)) (- len)
              (rt_spset_thrs 1 len p1) in
  let w' := exec (serial_callback 1 txfree) w in
  (ack = 79 ->
     w' = exec send_payload (World (drv w) p1) /\
     port w' = snd wr /\
     (state (drv w') = SENDING_DATA <-> fst wr = 0) /\
     (state (drv w') = READY <-> fst wr <> 0)) /\
  (ack <> 79 ->
     port w' = p1 /\
     state (drv w') = READY /\
     state (drv w') <> SENDING_DATA).
Proof.
  intros Hst. destruct w as [d p]. run_driver. rewrite Hst. simpl.
  destruct (rt_spread 1 p) as [ack p1]. simpl.
  destruct (Z.eqb_spec ack 79) as [Heq|Hne]; simpl.
  - split; [intros _ | contradiction].
    destruct (rt_spwrite _ _ _) as [r p2]. simpl.
    destruct (Z.eqb_spec r 0) as [Hr|Hr]; simpl; intuition congruence.
  - split; [contradiction | intros _].
    intuition congruence.
Qed.

Lemma begin_ack_decoded_witness :
  (submitted (port (exec (serial_callback 1 14) (awaiting_begin_ack 79))) =
     [([0x11], 1);
      ([3; 0x31; 0x20; 0; 1; 100; 0; 0; 0; 0x8a; 0xc7], - 11)] /\
   state (drv (exec (serial_callback 1 14) (awaiting_begin_ack 79)))
     = SENDING_DATA) /\
  (submitted
     (port (exec (serial_callback 1 14) awaiting_begin_ack_refusing)) =
     [([0x11], 1);
      ([3; 0x31; 0x20; 0; 1; 100; 0; 0; 0; 0x8a; 0xc7], - 11)] /\
   state (drv (exec (serial_callback 1 14) awaiting_begin_ack_refusing))
     = READY) /\
  (submitted (port (exec (serial_callback 1 14) (awaiting_begin_ack 88))) =
     [([0x11], 1)] /\
   state (drv (exec (serial_callback 1 14) (awaiting_begin_ack 88)))
     = READY).
Proof.
  split; [|split].
  - destruct (begin_ack_decoded 14 (awaiting_begin_ack 79)) as [Hacc _];
      [reflexivity|].
    destruct Hacc as (_ & Hport & Hstate & _); [reflexivity|].
    split; [now rewrite Hport | now apply Hstate].
  - destruct (begin_ack_decoded 14 awaiting_begin_ack_refusing) as [Hacc _];
      [reflexivity|].
    destruct Hacc as (_ & Hport & _ & Hstate); [reflexivity|].
    split; [now rewrite Hport | apply Hstate; vm_compute; discriminate].
  - destruct (begin_ack_decoded 14 (awaiting_begin_ack 88)) as [_ Hrej];
      [reflexivity|].
    destruct Hrej as (Hport & Hstate & _); [vm_compute; discriminate|].
    split; [now rewrite Hport | exact Hstate].
Defined.

(** C6 as stated fails: the byte read is ['O'] and the payload is handed to
    the port, but the port takes none of it; the transaction does not go
    on, the driver is back in [READY]. *)
Lemma begin_ack_accepted_payload_refused :
  state (drv awaiting_begin_ack_refusing) = WAITING_BEGIN_ACK /\
  fst (rt_spread 1 (port awaiting_begin_ack_refusing)) = 79 /\
  submitted (port (exec (serial_callback 1 14) awaiting_begin_ack_refusing)) =
    [([0x11], 1);
     ([3; 0x31; 0x20; 0; 1; 100; 0; 0; 0; 0x8a; 0xc7], - 11)] /\
  state (drv (exec (serial_callback 1 14) awaiting_begin_ack_refusing))
    = READY /\
  state (drv (exec (serial_callback 1 14) awaiting_begin_ack_refusing))
    <> SENDING_DATA.
Proof. vm_compute. repeat split; discriminate. Qed.

(** C3 (as the code has it). On a callback in [WAITING_BEGIN_ACK] with one
    byte receivable, when the byte read is not ['O'] the state becomes
    [READY]; both buffers and both recorded lengths stay as they were, and
    the callback hands nothing to a caller. *)
Theorem begin_ack_rejected {T : Type} `{Serial T} (host : byte_order)
    (txfree : Z) (w : world T) :
  state (drv w) = WAITING_BEGIN_ACK ->
  fst (rt_spread 1 (port w)) <> 79 ->
  deliver host (SerialCallback 1 txfree) w =
  (None,
   World (Driver READY
            (outbound_payload (drv w)) (inbound_payload (drv w))
            (outbound_payload_len (drv w)) (inbound_payload_len (drv w)))
         (snd (rt_spread 1 (port w)))).
Proof.
  intros Hst Hack. destruct w as [d p]. run_driver. rewrite Hst. simpl.
  destruct (rt_spread 1 p) as [ack p1]. simpl in *.
  destruct (Z.eqb_spec ack 79) as [Heq|Hne]; [contradiction|reflexivity].
Qed.

Lemma begin_ack_rejected_witness :
  deliver LittleEndian (SerialCallback 1 14) (awaiting_begin_ack 88) =
  (None,
   World (Driver READY
            [3; 0x31; 0x20; 0; 1; 100; 0; 0; 0; 0x8a; 0xc7; 0; 0; 0]
            (replicate 14 0) 11 0)
         (Script [] [] [([0x11], 1)] [])).
Proof.
  refine (begin_ack_rejected LittleEndian 14 (awaiting_begin_ack 88) _ _).
  - reflexivity.
  - vm_compute. discriminate.
Defined.

(** C3 as stated fails: with the begin-ack byte ['X'] (88) the state does
    go back to [READY], but the outbound buffer still holds the whole
    frame and its recorded length is still 11; nothing is cleared. *)
Lemma begin_ack_rejected_keeps_frame :
  state (drv (awaiting_begin_ack 88)) = WAITING_BEGIN_ACK /\
  fst (rt_spread 1 (port (awaiting_begin_ack 88))) = 88 /\
  state (drv (exec (serial_callback 1 14) (awaiting_begin_ack 88))) = READY /\
  outbound_payload (drv (exec (serial_callback 1 14) (awaiting_begin_ack 88)))
    = [3; 0x31; 0x20; 0; 1; 100; 0; 0; 0; 0x8a; 0xc7; 0; 0; 0] /\
  outbound_payload (drv (exec (serial_callback 1 14) (awaiting_begin_ack 88)))
    <> outbound_payload driver_init /\
  outbound_payload_len
    (drv (exec (serial_callback 1 14) (awaiting_begin_ack 88))) = 11 /\
  outbound_payload_len
    (drv (exec (serial_callback 1 14) (awaiting_begin_ack 88)))
    <> outbound_payload_len driver_init.
Proof. vm_compute. repeat split; discriminate. Qed.

(** ** Runs of the state machine *)

Lemma exec_run_cons {T : Type} `{Serial T} (host : byte_order)
    (e : event) (evs : list event) (w : world T) :
  exec (run host (e :: evs)) w = exec (run host evs) (exec (deliver host e) w).
Proof.
  unfold exec. simpl. unfold bind, ret.
  destruct (deliver host e w) as [r w1]. simpl.
  now destruct (run host evs w1).
Qed.

Lemma deliver_write_path {T : Type} `{Serial T} (host : byte_order)
    (e : event) (w : world T) :
  write_path (state (drv w)) = true ->
  write_path (state (drv (exec (deliver host e) w))) = true.
Proof.
  destruct w as [[st ob ib ol il] p],
    e as [index subindex nodeid data|rxavail txfree];
    run_driver; intros Hwp.
  - destruct (is_READY st); simpl; [|assumption].
    destruct (rt_spwrite [17] 1 p) as [r p1].
    destruct (r =? 0); simpl; [reflexivity|].
    destruct (r =? 1); simpl; assumption.
  - destruct st; simpl; try assumption.
    + destruct (txfree =? MAX_PAYLOAD); reflexivity.
    + destruct (rxavail =? 1); simpl; [|reflexivity].
      destruct (rt_spread 1 p) as [ack p1].
      destruct (ack =? 79); simpl; [|reflexivity].
      destruct (rt_spwrite _ _ _) as [r p2].
      destruct (r =? 0); reflexivity.
    + destruct (txfree =? MAX_PAYLOAD); reflexivity.
Qed.

Lemma run_write_path {T : Type} `{Serial T} (host : byte_order)
    (evs : list event) :
  forall w : world T,
    write_path (state (drv w)) = true ->
    write_path (state (drv (exec (run host evs) w))) = true.
Proof.
  induction evs as [|e evs IH]; intros w Hwp.
  - exact Hwp.
  - rewrite exec_run_cons. apply IH, deliver_write_path, Hwp.
Qed.

(** C8. From [READY], no sequence of [write_object] calls and callbacks
    reaches [WAITING_RESPONSE_LEN], [WAITING_RESPONSE_DATA] or
    [SENDING_RESPONSE_ACK]; and [WAITING_END_ACK] is absorbing: an event
    delivered there leaves the state, and the whole world, as it was. *)
Theorem response_states_unreachable {T : Type} `{Serial T}
    (host : byte_order) :
  (forall (evs : list event) (w : world T),
      state (drv w) = READY ->
      let s := state (drv (exec (run host evs) w)) in
      s <> WAITING_RESPONSE_LEN /\
      s <> WAITING_RESPONSE_DATA /\
      s <> SENDING_RESPONSE_ACK) /\
  (forall (e : event) (w : world T),
      state (drv w) = WAITING_END_ACK ->
      state (drv (exec (deliver host e) w)) = WAITING_END_ACK /\
      exec (deliver host e) w = w).
Proof.
  split.
  - intros evs w Hst.
    assert (Hwp : write_path (state (drv w)) = true) by now rewrite Hst.
    apply (run_write_path host evs) in Hwp.
    destruct (state (drv (exec (run host evs) w))); simpl in Hwp;
      repeat split; congruence.
  - intros e w Hst. destruct w as [d p], e; run_driver; rewrite Hst; auto.
Qed.

Lemma response_states_unreachable_witness :
  (let s := state (drv (exec (run LittleEndian handshake) (loaded [79]))) in
   s <> WAITING_RESPONSE_LEN /\
   s <> WAITING_RESPONSE_DATA /\
   s <> SENDING_RESPONSE_ACK) /\
  (state (drv (exec (deliver LittleEndian (SerialCallback 1 14))
                 awaiting_end_ack)) = WAITING_END_ACK /\
   exec (deliver LittleEndian (SerialCallback 1 14)) awaiting_end_ack
     = awaiting_end_ack) /\
  (state (drv (exec (deliver LittleEndian (WriteObject 0x2031 0 1 100))
                 awaiting_end_ack)) = WAITING_END_ACK /\
   exec (deliver LittleEndian (WriteObject 0x2031 0 1 100)) awaiting_end_ack
     = awaiting_end_ack).
Proof.
  destruct (response_states_unreachable (T := script) LittleEndian)
    as [Hreach Habs].
  split; [|split].
  - apply (Hreach handshake (loaded [79])). reflexivity.
  - apply (Habs (SerialCallback 1 14) awaiting_end_ack). reflexivity.
  - apply (Habs (WriteObject 0x2031 0 1 100) awaiting_end_ack). reflexivity.
Defined.

(** The end acknowledgment is never read: once in [WAITING_END_ACK], any
    further run of events leaves the driver there. *)
Corollary waiting_end_ack_forever {T : Type} `{Serial T} (host : byte_order)
    (evs : list event) :
  forall w : world T,
    state (drv w) = WAITING_END_ACK -> exec (run host evs) w = w.
Proof.
  induction evs as [|e evs IH]; intros w Hst; [reflexivity|].
  rewrite exec_run_cons.
  destruct w as [d p], e; run_driver; rewrite Hst; simpl;
    apply (IH (World d p)); exact Hst.
Qed.

Lemma result_run_cons {T : Type} `{Serial T} (host : byte_order)
    (e : event) (evs : list event) (w : world T) :
  result (run host (e :: evs)) w =
  result (deliver host e) w :: result (run host evs) (exec (deliver host e) w).
Proof.
  unfold exec, result. simpl. unfold bind, ret.
  destruct (deliver host e w) as [r w1]. simpl.
  now destruct (run host evs w1).
Qed.

(** A callback never hands a status to a caller. *)
Lemma result_deliver_callback {T : Type} `{Serial T} (host : byte_order)
    (rxavail txfree : Z) (w : world T) :
  result (deliver host (SerialCallback rxavail txfree)) w = None.
Proof.
  unfold result, deliver, bind, ret.
  now destruct (serial_callback rxavail txfree w).
Qed.

(** C2 (as the code has it). From [READY], the write of index 0x2031,
    subindex 0, node 1, data 100 is taken in; a callback reports the
    transmit buffer fully free; a callback finds the begin-ack ['O']
    receivable; a callback reports the transmit buffer fully free again.
    The run ends in [WAITING_END_ACK] when the port took the whole payload
    (in [READY] when it did not), the frame is still in the outbound
    buffer, and the only status handed to the caller is the [SUCCESS] of
    the admission: the callbacks report nothing. *)
Theorem handshake_run {T : Type} `{Serial T} (host : byte_order)
    (rx1 tx2 rx3 : Z) (w : world T) :
  result (write_object host 0x2031 0 1 100) w = SUCCESS ->
  fst (rt_spread 1 (port (exec (write_object host 0x2031 0 1 100) w))) = 79 ->
  let w1 := exec (write_object host 0x2031 0 1 100) w in
  let taken :=
    fst (rt_spwrite (outbound_payload (drv w1)) (- 11)
           (rt_spset_thrs 1 11 (snd (rt_spread 1 (port w1))))) in
  let evs :=
    [WriteObject 0x2031 0 1 100; SerialCallback rx1 14;
     SerialCallback 1 tx2; SerialCallback rx3 14] in
  result (run host evs) w = [Some SUCCESS; None; None; None] /\
  state (drv (exec (run host evs) w)) =
    (if taken =? 0 then WAITING_END_ACK else READY) /\
  outbound_payload (drv (exec (run host evs) w)) = outbound_payload (drv w1) /\
  outbound_payload_len (drv (exec (run host evs) w)) = 11.
Proof.
  intros Hres Hack.
  destruct (write_object_success_inv _ _ _ _ _ _ Hres) as [Hst Hwr].
  pose proof (write_object_accepted host 0x2031 0 1 100 w Hst Hwr) as Hadm.
  unfold exec, result in *. simpl run. unfold deliver, bind, ret.
  rewrite Hadm in *. clear Hadm Hres.
  destruct (rt_spwrite [17] 1 (port w)) as [r0 p1].
  cbn [fst snd drv port] in *. subst r0.
  unfold serial_callback, read_begin_ack, send_payload, set_state,
    spwrite, spread, spset_thrs, read_var, write_var, bind, ret.
  cbn [fst snd drv port state outbound_payload outbound_payload_len
       inbound_payload inbound_payload_len].
  rewrite Z.eqb_refl.
  cbn [fst snd drv port state outbound_payload outbound_payload_len
       inbound_payload inbound_payload_len].
  rewrite Z.eqb_refl.
  destruct (rt_spread 1 _) as [ack p2]. cbn [fst snd] in *. subst ack.
  cbn [fst snd drv port state outbound_payload outbound_payload_len
       inbound_payload inbound_payload_len Z.eqb Pos.eqb].
  destruct (rt_spwrite _ _ _) as [r p3].
  cbn [fst snd drv port state outbound_payload outbound_payload_len
       inbound_payload inbound_payload_len].
  destruct (r =? 0);
    cbn [negb fst snd drv port state outbound_payload outbound_payload_len
         inbound_payload inbound_payload_len];
    rewrite ?Z.eqb_refl; cbn; auto.
Qed.

Lemma handshake_run_witness :
  result (run LittleEndian handshake) (loaded [79])
    = [Some SUCCESS; None; None; None] /\
  state (drv (exec (run LittleEndian handshake) (loaded [79])))
    = WAITING_END_ACK /\
  outbound_payload (drv (exec (run LittleEndian handshake) (loaded [79])))
    = [3; 0x31; 0x20; 0; 1; 100; 0; 0; 0; 0x8a; 0xc7; 0; 0; 0] /\
  outbound_payload_len (drv (exec (run LittleEndian handshake) (loaded [79])))
    = 11.
Proof.
  refine (handshake_run LittleEndian 0 14 0 (loaded [79]) _ _);
    reflexivity.
Defined.

(** C2 as stated fails: on a port that takes every byte and answers ['O'],
    the scripted run does not come back to [READY]; it stops in
    [WAITING_END_ACK], and stays there under any further callback, the
    end-ack byte receivable or not. *)
Lemma handshake_not_back_to_ready :
  state (drv (loaded [79; 79])) = READY /\
  result (run LittleEndian handshake) (loaded [79; 79])
    = [Some SUCCESS; None; None; None] /\
  state (drv (exec (run LittleEndian handshake) (loaded [79; 79])))
    = WAITING_END_ACK /\
  state (drv (exec (run LittleEndian handshake) (loaded [79; 79])))
    <> READY /\
  state (drv (exec (run LittleEndian (handshake ++ [SerialCallback 1 14]))
                (loaded [79; 79])))
    <> READY.
Proof. vm_compute. repeat split; discriminate. Qed.

(** * Further properties of the driver *)

(** ** Admission, beyond the busy and buffer-full cases *)

(** X1. Called in [READY], when [rt_spwrite] answers anything but 0 or 1
    for the opcode byte (a negative error number, say), [write_object]
    returns [UNEXPECTED_ERROR]; the module variables are as before and the
    port has seen that one call only. *)
Theorem write_object_unexpected_error {T : Type} `{Serial T}
    (host : byte_order) (index subindex nodeid data : Z) (w : world T) :
  state (drv w) = READY ->
  fst (rt_spwrite [0x11] 1 (port w)) <> 0 ->
  fst (rt_spwrite [0x11] 1 (port w)) <> 1 ->
  write_object host index subindex nodeid data w =
  (UNEXPECTED_ERROR, World (drv w) (snd (rt_spwrite [0x11] 1 (port w)))).
Proof.
  intros Hst H0 H1. destruct w as [d p]. run_driver. rewrite Hst. simpl.
  destruct (rt_spwrite [17] 1 p) as [r p']. simpl in *.
  destruct (Z.eqb_spec r 0); [contradiction|].
  destruct (Z.eqb_spec r 1); [contradiction|]. reflexivity.
Qed.

Lemma write_object_unexpected_error_witness :
  write_object LittleEndian 0x2031 0 1 100
    (World driver_init (Script [-19] [] [] [])) =
  (UNEXPECTED_ERROR,
   World driver_init (Script [] [] [([0x11], 1)] [])).
Proof.
  refine (write_object_unexpected_error LittleEndian 0x2031 0 1 100
            (World driver_init (Script [-19] [] [] [])) _ _ _);
    [reflexivity | vm_compute; discriminate | vm_compute; discriminate].
Defined.

(** X2. [write_object] returns [SUCCESS] exactly when the driver was in
    [READY] and the port took the opcode byte. *)
Theorem write_object_success_iff {T : Type} `{Serial T}
    (host : byte_order) (index subindex nodeid data : Z) (w : world T) :
  result (write_object host index subindex nodeid data) w = SUCCESS <->
  state (drv w) = READY /\ fst (rt_spwrite [0x11] 1 (port w)) = 0.
Proof.
  split.
  - apply write_object_success_inv.
  - intros [Hst Hwr]. unfold result.
    now rewrite write_object_accepted.
Qed.

(** X3. Unless it returns [SUCCESS], [write_object] leaves every module
    variable as it was: no refused call disturbs the state or a frame
    already in the buffer. *)
Theorem write_object_refused_keeps {T : Type} `{Serial T}
    (host : byte_order) (index subindex nodeid data : Z) (w : world T) :
  result (write_object host index subindex nodeid data) w <> SUCCESS ->
  drv (exec (write_object host index subindex nodeid data) w) = drv w.
Proof.
  destruct w as [d p]. run_driver.
  destruct (is_READY (state d)); simpl; [|reflexivity].
  destruct (rt_spwrite [17] 1 p) as [r p'].
  destruct (r =? 0); simpl; [congruence|].
  destruct (r =? 1); reflexivity.
Qed.

Lemma write_object_refused_keeps_witness :
  drv (exec (write_object BigEndian 0x6040 0 1 15) (awaiting_begin_ack 79))
  = drv (awaiting_begin_ack 79).
Proof.
  refine (write_object_refused_keeps BigEndian 0x6040 0 1 15
            (awaiting_begin_ack 79) _).
  vm_compute. discriminate.
Defined.

(** The cells of the frame, for a buffer of the declared size. *)
Lemma framed_cells (host : byte_order) (index subindex nodeid data : Z)
    (buf : list Z) :
  length buf = Z.to_nat MAX_PAYLOAD ->
  let body :=
    [3; index mod 256; (index / 2 ^ 8) mod 256; subindex; nodeid;
     data mod 256; (data / 2 ^ 8) mod 256; (data / 2 ^ 16) mod 256;
     (data / 2 ^ 24) mod 256] in
  let crc := crc_ccitt (crc_ccitt_byte 0 0x11) body 9 in
  framed host index subindex nodeid data buf =
  body ++ [crc mod 256; (crc / 2 ^ 8) mod 256] ++ drop 11 buf.
Proof.
  intros Hlen.
  destruct buf
    as [|c0 [|c1 [|c2 [|c3 [|c4 [|c5 [|c6 [|c7 [|c8 [|c9 [|c10 [|c11
        [|c12 [|c13 [|c14 rest]]]]]]]]]]]]]]]; try discriminate Hlen.
  unfold framed, filled. rewrite !union16_le, union32_le.
  cbn [take drop app list_inserts insert list_insert crc_ccitt].
  reflexivity.
Qed.

(** X4. An accepted call leaves the state [SENDING_OPCODE], has called the
    port once, with the opcode byte, and writes the first eleven cells of
    the outbound buffer only: the cells from 11 on, the size of the
    buffer, the inbound buffer and its length are as before. *)
Theorem write_object_accepted_effects {T : Type} `{Serial T}
    (host : byte_order) (index subindex nodeid data : Z) (w : world T) :
  length (outbound_payload (drv w)) = Z.to_nat MAX_PAYLOAD ->
  result (write_object host index subindex nodeid data) w = SUCCESS ->
  let w' := exec (write_object host index subindex nodeid data) w in
  state (drv w') = SENDING_OPCODE /\
  port w' = snd (rt_spwrite [0x11] 1 (port w)) /\
  drop 11 (outbound_payload (drv w')) = drop 11 (outbound_payload (drv w)) /\
  length (outbound_payload (drv w')) = length (outbound_payload (drv w)) /\
  inbound_payload (drv w') = inbound_payload (drv w) /\
  inbound_payload_len (drv w') = inbound_payload_len (drv w).
Proof.
  intros Hlen Hres.
  destruct (write_object_success_inv _ _ _ _ _ _ Hres) as [Hst Hwr].
  unfold exec. rewrite write_object_accepted by assumption.
  cbn [snd drv port state outbound_payload inbound_payload
       inbound_payload_len].
  rewrite framed_cells by assumption. cbv zeta.
  repeat split.
  rewrite !length_app, length_drop, Hlen. reflexivity.
Qed.

Lemma write_object_accepted_effects_witness :
  let w := World (Driver READY (replicate 14 0xee) (replicate 14 0x55) 0 3)
             (Script [] [] [] []) in
  let w' := exec (write_object LittleEndian 0x2031 0 1 100) w in
  state (drv w') = SENDING_OPCODE /\
  port w' = snd (rt_spwrite [0x11] 1 (port w)) /\
  drop 11 (outbound_payload (drv w')) = drop 11 (outbound_payload (drv w)) /\
  length (outbound_payload (drv w')) = length (outbound_payload (drv w)) /\
  inbound_payload (drv w') = inbound_payload (drv w) /\
  inbound_payload_len (drv w') = inbound_payload_len (drv w).
Proof.
  refine (write_object_accepted_effects LittleEndian 0x2031 0 1 100
            (World (Driver READY (replicate 14 0xee) (replicate 14 0x55) 0 3)
               (Script [] [] [] [])) _ _);
    reflexivity.
Defined.

(** ** The frame as the device checks it *)

(** Feeding a checksum its own low byte shifts it down by eight bits. *)
Lemma crc_ccitt_byte_own_low (crc : Z) :
  0 <= crc < 65536 ->
  crc_ccitt_byte crc (crc mod 256) = crc / 2 ^ 8.
Proof.
  intros Hcrc. unfold crc_ccitt_byte.
  replace (Z.land (Z.lxor crc (crc mod 256)) 0xff) with 0.
  - change (nth (Z.to_nat 0) crc_ccitt_table 0) with 0.
    rewrite Z.lxor_0_r, Z.shiftr_div_pow2 by lia.
    unfold u16. rewrite land_ffff_mod. apply Z.mod_small.
    change (2 ^ 8) with 256.
    split; [apply Z.div_pos; lia | apply Z.div_lt_upper_bound; lia].
  - rewrite <- land_ff_mod. symmetry. apply Z.bits_inj'. intros n Hn.
    rewrite Z.land_spec, Z.lxor_spec, Z.land_spec, Z.bits_0.
    destruct (Z.testbit crc n), (Z.testbit 255 n); reflexivity.
Qed.

Lemma crc_ccitt_none (crc : Z) (buffer : list Z) :
  crc_ccitt crc buffer 0 = crc.
Proof. now destruct buffer. Qed.

(** A checksum followed by its two bytes, low byte first, checks to 0,
    whatever comes after them. *)
Lemma crc_ccitt_residue (crc : Z) (rest : list Z) :
  0 <= crc < 65536 ->
  crc_ccitt crc (crc mod 256 :: (crc / 2 ^ 8) mod 256 :: rest) 2 = 0.
Proof.
  intros Hcrc. cbn [crc_ccitt].
  rewrite crc_ccitt_byte_own_low by assumption.
  change (2 ^ 8) with 256.
  assert (Hhi : 0 <= crc / 256 < 256)
    by (split; [apply Z.div_pos | apply Z.div_lt_upper_bound]; lia).
  rewrite crc_ccitt_byte_own_low, crc_ccitt_none by lia.
  change (2 ^ 8) with 256. apply Z.div_small. assumption.
Qed.

(** The checksum runs on from where it stopped. *)
Lemma crc_ccitt_app (front back : list Z) :
  forall (crc : Z) (n : nat),
    crc_ccitt crc (front ++ back) (length front + n) =
    crc_ccitt (crc_ccitt crc front (length front)) back n.
Proof.
  induction front as [|c front IH]; intros crc n; simpl.
  - destruct n, back; reflexivity.
  - apply IH.
Qed.

(** A body sent after its opcode and followed by the two bytes of the
    checksum of both checks to 0. *)
Lemma crc_ccitt_trailer (opcode : Z) (body rest : list Z) :
  let crc := crc_ccitt (crc_ccitt_byte 0 opcode) body (length body) in
  crc_ccitt 0
    (opcode ::
       take (length body + 2)
         (body ++ [crc mod 256; (crc / 2 ^ 8) mod 256] ++ rest))
    (S (length body + 2)) = 0.
Proof.
  intros crc. cbn [crc_ccitt].
  rewrite crc_ccitt_take, crc_ccitt_app. fold crc.
  apply crc_ccitt_residue, crc_ccitt_range, crc_ccitt_byte_range.
Qed.

(** X5. The frame of an accepted call passes the device's check: the
    CRC-CCITT, from seed 0, of the opcode 0x11 followed by all eleven
    bytes of the frame (checksum included) is 0. *)
Theorem write_object_frame_checks {T : Type} `{Serial T}
    (host : byte_order) (index subindex nodeid data : Z) (w : world T) :
  length (outbound_payload (drv w)) = Z.to_nat MAX_PAYLOAD ->
  result (write_object host index subindex nodeid data) w = SUCCESS ->
  let d' := drv (exec (write_object host index subindex nodeid data) w) in
  crc_ccitt 0 (0x11 :: take 11 (outbound_payload d')) 12 = 0.
Proof.
  intros Hlen Hres.
  destruct (write_object_success_inv _ _ _ _ _ _ Hres) as [Hst Hwr].
  unfold exec. rewrite write_object_accepted by assumption.
  cbn [snd drv outbound_payload].
  rewrite framed_cells by assumption. cbv zeta.
  exact (crc_ccitt_trailer 0x11
           [3; index mod 256; (index / 2 ^ 8) mod 256; subindex; nodeid;
            data mod 256; (data / 2 ^ 8) mod 256; (data / 2 ^ 16) mod 256;
            (data / 2 ^ 24) mod 256]
           (drop 11 (outbound_payload (drv w)))).
Qed.

Lemma write_object_frame_checks_witness :
  crc_ccitt 0
    (0x11 :: take 11
       (outbound_payload
          (drv (exec (write_object BigEndian 0x60ff 0 2 0xfffffc18)
                  (loaded [])))))
    12 = 0.
Proof.
  refine (write_object_frame_checks BigEndian 0x60ff 0 2 0xfffffc18
            (loaded []) _ _); reflexivity.
Defined.

(** ** Byte order of the host *)

Lemma framed_host (index subindex nodeid data : Z) (buf : list Z) :
  framed BigEndian index subindex nodeid data buf =
  framed LittleEndian index subindex nodeid data buf.
Proof. unfold framed, filled. now rewrite !union16_le, !union32_le. Qed.

(** X6. [write_object] does the same on a big-endian host as on a
    little-endian one: same status, same module variables, same port
    calls, for every argument and every world. *)
Theorem write_object_any_host {T : Type} `{Serial T}
    (index subindex nodeid data : Z) (w : world T) :
  write_object BigEndian index subindex nodeid data w =
  write_object LittleEndian index subindex nodeid data w.
Proof.
  destruct (is_READY (state (drv w))) eqn:Hrdy.
  - apply is_READY_true in Hrdy.
    destruct (Z.eq_dec (fst (rt_spwrite [0x11] 1 (port w))) 0) as [Hwr|Hwr].
    + rewrite !write_object_accepted by assumption.
      now rewrite framed_host.
    + destruct w as [d p]. run_driver. rewrite Hrdy. simpl.
      destruct (rt_spwrite [17] 1 p) as [r p']. simpl in Hwr.
      destruct (Z.eqb_spec r 0); [contradiction|].
      destruct (r =? 1); reflexivity.
  - destruct w as [d p]. run_driver. now rewrite Hrdy.
Qed.

(** ** Reading a frame back *)

Lemma two_bytes_inj (x y : Z) :
  0 <= x < 2 ^ 16 -> 0 <= y < 2 ^ 16 ->
  x mod 256 = y mod 256 ->
  (x / 2 ^ 8) mod 256 = (y / 2 ^ 8) mod 256 ->
  x = y.
Proof.
  change (2 ^ 16) with 65536. change (2 ^ 8) with 256.
  intros Hx Hy H0 H1. Z.div_mod_to_equations. lia.
Qed.

Lemma four_bytes_inj (x y : Z) :
  0 <= x < 2 ^ 32 -> 0 <= y < 2 ^ 32 ->
  x mod 256 = y mod 256 ->
  (x / 2 ^ 8) mod 256 = (y / 2 ^ 8) mod 256 ->
  (x / 2 ^ 16) mod 256 = (y / 2 ^ 16) mod 256 ->
  (x / 2 ^ 24) mod 256 = (y / 2 ^ 24) mod 256 ->
  x = y.
Proof.
  change (2 ^ 32) with 4294967296. change (2 ^ 8) with 256.
  change (2 ^ 16) with 65536. change (2 ^ 24) with 16777216.
  intros Hx Hy H0 H1 H2 H3. Z.div_mod_to_equations. lia.
Qed.

(** X7. The frame tells the device what was asked: two accepted calls
    that leave the same nine payload cells were made with the same index,
    subindex, node id and data. *)
Theorem write_object_frame_injective {T : Type} `{Serial T}
    (host : byte_order) (index subindex nodeid data : Z)
    (index' subindex' nodeid' data' : Z) (w w' : world T) :
  0 <= index < 2 ^ 16 -> 0 <= index' < 2 ^ 16 ->
  0 <= data < 2 ^ 32 -> 0 <= data' < 2 ^ 32 ->
  length (outbound_payload (drv w)) = Z.to_nat MAX_PAYLOAD ->
  length (outbound_payload (drv w')) = Z.to_nat MAX_PAYLOAD ->
  result (write_object host index subindex nodeid data) w = SUCCESS ->
  result (write_object host index' subindex' nodeid' data') w' = SUCCESS ->
  take 9 (outbound_payload
            (drv (exec (write_object host index subindex nodeid data) w))) =
  take 9 (outbound_payload
            (drv (exec (write_object host index' subindex' nodeid' data') w'))) ->
  index = index' /\ subindex = subindex' /\ nodeid = nodeid' /\ data = data'.
Proof.
  intros Hi Hi' Hd Hd' Hlen Hlen' Hres Hres'.
  destruct (write_object_success_inv _ _ _ _ _ _ Hres) as [Hst Hwr].
  destruct (write_object_success_inv _ _ _ _ _ _ Hres') as [Hst' Hwr'].
  unfold exec. rewrite !write_object_accepted by assumption.
  cbn [snd drv outbound_payload].
  rewrite !framed_cells by assumption. cbv zeta.
  cbn [take app]. intros Heq.
  injection Heq as Hi0 Hi1 Hs Hn Hd0 Hd1 Hd2 Hd3.
  repeat split; try assumption.
  - now apply two_bytes_inj.
  - now apply four_bytes_inj.
Qed.

Lemma write_object_frame_injective_witness :
  0x2031 = 0x2031 /\ 0 = 0 /\ 1 = 1 /\ 100 = 100.
Proof.
  refine (write_object_frame_injective BigEndian 0x2031 0 1 100
            0x2031 0 1 100 (loaded [])
            (World (Driver READY (replicate 14 9) (replicate 14 0) 0 0)
               (Script [] [] [] []))
            _ _ _ _ _ _ _ _ _); first [lia | reflexivity].
Defined.

(** ** What the callback leaves alone *)

(** Case analysis over everything a callback can do. *)
Ltac callback_cases w rxavail txfree :=
  destruct w as [[st ob ib ol il] p]; run_driver;
  destruct st; simpl; auto;
  try (destruct (txfree =? MAX_PAYLOAD); simpl; now auto);
  destruct (rxavail =? 1); simpl; auto;
  destruct (rt_spread 1 p) as [ack p1];
  destruct (ack =? 79); simpl; auto;
  destruct (rt_spwrite ob (- ol) (rt_spset_thrs 1 ol p1)) as [r p2];
  destruct (r =? 0); simpl; auto.

Lemma serial_callback_buffers_kept {T : Type} `{Serial T}
    (rxavail txfree : Z) (w : world T) :
  outbound_payload (drv (exec (serial_callback rxavail txfree) w))
    = outbound_payload (drv w) /\
  inbound_payload (drv (exec (serial_callback rxavail txfree) w))
    = inbound_payload (drv w) /\
  outbound_payload_len (drv (exec (serial_callback rxavail txfree) w))
    = outbound_payload_len (drv w) /\
  inbound_payload_len (drv (exec (serial_callback rxavail txfree) w))
    = inbound_payload_len (drv w).
Proof.
  callback_cases w rxavail txfree.
Qed.

(** X8. In whatever state, on whatever event values, [serial_callback]
    changes no buffer and no recorded length: it only ever assigns
    [state]. *)
Theorem serial_callback_keeps_buffers {T : Type} `{Serial T}
    (rxavail txfree : Z) (w : world T) :
  let d' := drv (exec (serial_callback rxavail txfree) w) in
  outbound_payload d' = outbound_payload (drv w) /\
  inbound_payload d' = inbound_payload (drv w) /\
  outbound_payload_len d' = outbound_payload_len (drv w) /\
  inbound_payload_len d' = inbound_payload_len (drv w).
Proof.
  cbv zeta. callback_cases w rxavail txfree.
Qed.

(** X9. The callback calls the port only in [WAITING_BEGIN_ACK] and only
    when exactly one byte is receivable.  In particular, with the driver
    in [WAITING_BEGIN_ACK] and any other count receivable (none, or two
    and more), nothing is read and the world is as before. *)
Theorem serial_callback_port_calls {T : Type} `{Serial T}
    (rxavail txfree : Z) (w : world T) :
  (state (drv w) <> WAITING_BEGIN_ACK \/ rxavail <> 1 ->
   port (exec (serial_callback rxavail txfree) w) = port w) /\
  (state (drv w) = WAITING_BEGIN_ACK -> rxavail <> 1 ->
   serial_callback rxavail txfree w = (tt, w)).
Proof.
  destruct w as [[st ob ib ol il] p]. run_driver. split.
  - intros [Hst|Hrx].
    + destruct st; simpl; try reflexivity;
        try (destruct (txfree =? MAX_PAYLOAD); reflexivity).
      contradiction.
    + destruct st; simpl; try reflexivity;
        try (destruct (txfree =? MAX_PAYLOAD); reflexivity).
      destruct (Z.eqb_spec rxavail 1); [contradiction|reflexivity].
  - intros Hst Hrx. subst st.
    destruct (Z.eqb_spec rxavail 1); [contradiction|reflexivity].
Qed.

Lemma serial_callback_port_calls_witness :
  port (exec (serial_callback 2 14) (awaiting_begin_ack 79))
    = port (awaiting_begin_ack 79) /\
  serial_callback 2 14 (awaiting_begin_ack 79)
    = (tt, awaiting_begin_ack 79).
Proof.
  destruct (serial_callback_port_calls 2 14 (awaiting_begin_ack 79))
    as [Hport Hworld].
  split.
  - apply Hport. right. lia.
  - apply Hworld; [reflexivity | lia].
Defined.

(** ** Invariants of runs *)

Lemma deliver_keeps_inbound {T : Type} `{Serial T} (host : byte_order)
    (e : event) (w : world T) :
  let d' := drv (exec (deliver host e) w) in
  inbound_payload d' = inbound_payload (drv w) /\
  inbound_payload_len d' = inbound_payload_len (drv w) /\
  length (outbound_payload d') = length (outbound_payload (drv w)).
Proof.
  destruct e as [index subindex nodeid data|rxavail txfree].
  - assert (Hexec : exec (deliver host (WriteObject index subindex nodeid data)) w
                    = exec (write_object host index subindex nodeid data) w).
    { unfold exec, deliver, bind, ret.
      now destruct (write_object host index subindex nodeid data w). }
    rewrite Hexec. clear Hexec.
    destruct (is_READY (state (drv w))) eqn:Hrdy.
    + apply is_READY_true in Hrdy.
      destruct (Z.eq_dec (fst (rt_spwrite [0x11] 1 (port w))) 0) as [Hwr|Hwr].
      * unfold exec. rewrite write_object_accepted by assumption.
        cbn [snd drv inbound_payload inbound_payload_len outbound_payload].
        repeat split.
        unfold framed, filled. rewrite !union16_le, union32_le.
        cbn [take list_inserts]. now rewrite !length_insert.
      * destruct w as [d p]. run_driver. rewrite Hrdy. simpl.
        destruct (rt_spwrite [17] 1 p) as [r p']. simpl in Hwr.
        destruct (Z.eqb_spec r 0); [contradiction|].
        destruct (r =? 1); simpl; auto.
    + destruct w as [d p]. run_driver. rewrite Hrdy. simpl. auto.
  - assert (Hexec : exec (deliver host (SerialCallback rxavail txfree)) w
                    = exec (serial_callback rxavail txfree) w).
    { unfold exec, deliver, bind, ret.
      now destruct (serial_callback rxavail txfree w). }
    rewrite Hexec.
    destruct (serial_callback_buffers_kept rxavail txfree w)
      as (Hob & Hib & _ & Hil).
    cbv zeta. now rewrite Hob, Hib, Hil.
Qed.

(** X10. Over any run of calls and callbacks the inbound buffer and its
    recorded length are never written, and the outbound buffer keeps its
    number of cells. *)
Theorem run_keeps_inbound {T : Type} `{Serial T} (host : byte_order)
    (evs : list event) :
  forall w : world T,
    inbound_payload (drv (exec (run host evs) w)) = inbound_payload (drv w) /\
    inbound_payload_len (drv (exec (run host evs) w))
      = inbound_payload_len (drv w) /\
    length (outbound_payload (drv (exec (run host evs) w)))
      = length (outbound_payload (drv w)).
Proof.
  induction evs as [|e evs IH]; intros w.
  - repeat split.
  - rewrite exec_run_cons.
    destruct (IH (exec (deliver host e) w)) as (Hib & Hil & Hsz).
    destruct (deliver_keeps_inbound host e w) as (Hib1 & Hil1 & Hsz1).
    rewrite Hib, Hil, Hsz. auto.
Qed.

(** ** The shape of the state machine *)

(** X11. One event moves the state along at most one of five edges:
    [READY] to [SENDING_OPCODE], [SENDING_OPCODE] to [WAITING_BEGIN_ACK],
    [WAITING_BEGIN_ACK] to [SENDING_DATA] or back to [READY], and
    [SENDING_DATA] to [WAITING_END_ACK]; any other event leaves the state
    as it is. *)
Theorem deliver_edge {T : Type} `{Serial T} (host : byte_order)
    (e : event) (w : world T) :
  state (drv (exec (deliver host e) w)) = state (drv w) \/
  edge (state (drv w)) (state (drv (exec (deliver host e) w))) = true.
Proof.
  destruct w as [[st ob ib ol il] p],
    e as [index subindex nodeid data|rxavail txfree]; run_driver.
  - destruct st; simpl; auto.
    destruct (rt_spwrite [17] 1 p) as [r p1].
    destruct (r =? 0); simpl; auto.
    destruct (r =? 1); simpl; auto.
  - destruct st; simpl; auto;
      try (destruct (txfree =? MAX_PAYLOAD); simpl; now auto).
    destruct (rxavail =? 1); simpl; auto.
    destruct (rt_spread 1 p) as [ack p1].
    destruct (ack =? 79); simpl; auto.
    destruct (rt_spwrite ob (- ol) (rt_spset_thrs 1 ol p1)) as [r p2].
    destruct (r =? 0); simpl; auto.
Qed.

(** X12. A transaction in flight ends in one way only: an event brings
    the driver from another state back to [READY] only if the state was
    [WAITING_BEGIN_ACK], the event is a callback with one byte receivable,
    and either the byte read is not ['O'] or the port did not take the
    whole payload. *)
Theorem back_to_ready {T : Type} `{Serial T} (host : byte_order)
    (e : event) (w : world T) :
  state (drv w) <> READY ->
  state (drv (exec (deliver host e) w)) = READY ->
  state (drv w) = WAITING_BEGIN_ACK /\
  (exists txfree, e = SerialCallback 1 txfree) /\
  let ack := fst (rt_spread 1 (port w)) in
  let p1 := snd (rt_spread 1 (port w)) in
  let len := outbound_payload_len (drv w) in
  (ack <> 79 \/
   fst (rt_spwrite (outbound_payload (drv w)) (- len)
          (rt_spset_thrs 1 len p1)) <> 0).
Proof.
  destruct w as [[st ob ib ol il] p],
    e as [index subindex nodeid data|rxavail txfree]; run_driver.
  - intros Hne. destruct st; simpl; congruence.
  - intros Hne.
    destruct st; simpl; try congruence;
      try (destruct (txfree =? MAX_PAYLOAD); simpl; congruence).
    destruct (Z.eqb_spec rxavail 1) as [->|Hrx]; simpl; [|congruence].
    destruct (rt_spread 1 p) as [ack p1]. simpl.
    destruct (Z.eqb_spec ack 79) as [->|Hack]; simpl.
    + destruct (rt_spwrite ob (- ol) (rt_spset_thrs 1 ol p1)) as [r p2].
      simpl. destruct (Z.eqb_spec r 0); simpl; [congruence|].
      intros _. repeat split; eauto.
    + intros _. repeat split; eauto.
Qed.

Lemma back_to_ready_witness :
  state (drv (awaiting_begin_ack 88)) = WAITING_BEGIN_ACK /\
  (exists txfree, SerialCallback 1 14 = SerialCallback 1 txfree) /\
  let ack := fst (rt_spread 1 (port (awaiting_begin_ack 88))) in
  let p1 := snd (rt_spread 1 (port (awaiting_begin_ack 88))) in
  let len := outbound_payload_len (drv (awaiting_begin_ack 88)) in
  (ack <> 79 \/
   fst (rt_spwrite (outbound_payload (drv (awaiting_begin_ack 88))) (- len)
          (rt_spset_thrs 1 len p1)) <> 0).
Proof.
  refine (back_to_ready LittleEndian (SerialCallback 1 14)
            (awaiting_begin_ack 88) _ _).
  - vm_compute. discriminate.
  - reflexivity.
Defined.

(** X13. Once the payload has gone out the driver is busy for good: from
    [WAITING_END_ACK], whatever events follow, every [write_object] is
    answered [DRIVER_BUSY] and no callback changes that. *)
Theorem busy_after_payload {T : Type} `{Serial T} (host : byte_order)
    (evs : list event) :
  forall w : world T,
    state (drv w) = WAITING_END_ACK ->
    run host evs w = (map busy_answer evs, w).
Proof.
  induction evs as [|e evs IH]; intros w Hst; [reflexivity|].
  assert (Hstep : deliver host e w = (busy_answer e, w)).
  { destruct w as [d p], e; run_driver; now rewrite Hst. }
  simpl. unfold bind, ret. rewrite Hstep, (IH w Hst). reflexivity.
Qed.

Lemma busy_after_payload_witness :
  run LittleEndian
    [WriteObject 0x6040 0 1 6; SerialCallback 1 14; WriteObject 0x6040 0 1 7]
    awaiting_end_ack
  = ([Some DRIVER_BUSY; None; Some DRIVER_BUSY], awaiting_end_ack).
Proof.
  refine (busy_after_payload LittleEndian
            [WriteObject 0x6040 0 1 6; SerialCallback 1 14;
             WriteObject 0x6040 0 1 7]
            awaiting_end_ack _).
  reflexivity.
Defined.

(** X14. While a transaction is in flight its frame is safe: in any state
    other than [READY], no event, call or callback, changes the outbound
    buffer or its recorded length. *)
Theorem in_flight_frame_kept {T : Type} `{Serial T} (host : byte_order)
    (e : event) (w : world T) :
  state (drv w) <> READY ->
  outbound_payload (drv (exec (deliver host e) w))
    = outbound_payload (drv w) /\
  outbound_payload_len (drv (exec (deliver host e) w))
    = outbound_payload_len (drv w).
Proof.
  intros Hbusy. destruct e as [index subindex nodeid data|rxavail txfree].
  - apply is_READY_false in Hbusy.
    destruct w as [d p]. run_driver. rewrite Hbusy. simpl. auto.
  - assert (Hexec : exec (deliver host (SerialCallback rxavail txfree)) w
                    = exec (serial_callback rxavail txfree) w).
    { unfold exec, deliver, bind, ret.
      now destruct (serial_callback rxavail txfree w). }
    rewrite Hexec.
    destruct (serial_callback_buffers_kept rxavail txfree w)
      as (Hob & _ & Hol & _).
    auto.
Qed.

Lemma in_flight_frame_kept_witness :
  outbound_payload
    (drv (exec (deliver LittleEndian (WriteObject 0x6040 0 1 6))
            (awaiting_begin_ack 79)))
    = outbound_payload (drv (awaiting_begin_ack 79)) /\
  outbound_payload_len
    (drv (exec (deliver LittleEndian (WriteObject 0x6040 0 1 6))
            (awaiting_begin_ack 79)))
    = outbound_payload_len (drv (awaiting_begin_ack 79)).
Proof.
  refine (in_flight_frame_kept LittleEndian (WriteObject 0x6040 0 1 6)
            (awaiting_begin_ack 79) _).
  vm_compute. discriminate.
Defined.

(** ** A whole write, for any arguments *)

Lemma exec_deliver_write {T : Type} `{Serial T} (host : byte_order)
    (index subindex nodeid data : Z) (w : world T) :
  exec (deliver host (WriteObject index subindex nodeid data)) w =
  exec (write_object host index subindex nodeid data) w.
Proof.
  unfold exec, deliver, bind, ret.
  now destruct (write_object host index subindex nodeid data w).
Qed.

Lemma exec_deliver_callback {T : Type} `{Serial T} (host : byte_order)
    (rxavail txfree : Z) (w : world T) :
  exec (deliver host (SerialCallback rxavail txfree)) w =
  exec (serial_callback rxavail txfree) w.
Proof.
  unfold exec, deliver, bind, ret.
  now destruct (serial_callback rxavail txfree w).
Qed.

(** The opcode, then the payload, reported sent. *)
Lemma callback_sent {T : Type} `{Serial T} (rxavail : Z)
    (ob ib : list Z) (ol il : Z) (p : T) :
  exec (serial_callback rxavail 14)
    (World (Driver SENDING_OPCODE ob ib ol il) p)
    = World (Driver WAITING_BEGIN_ACK ob ib ol il) p /\
  exec (serial_callback rxavail 14)
    (World (Driver SENDING_DATA ob ib ol il) p)
    = World (Driver WAITING_END_ACK ob ib ol il) p.
Proof. split; reflexivity. Qed.

(** The begin-ack ['O'] read and the payload taken by the port. *)
Lemma callback_begin_ack_taken {T : Type} `{Serial T} (txfree : Z)
    (ob ib : list Z) (ol il : Z) (p : T) :
  fst (rt_spread 1 p) = 79 ->
  fst (rt_spwrite ob (- ol) (rt_spset_thrs 1 ol (snd (rt_spread 1 p)))) = 0 ->
  exec (serial_callback 1 txfree)
    (World (Driver WAITING_BEGIN_ACK ob ib ol il) p)
  = World (Driver SENDING_DATA ob ib ol il)
      (snd (rt_spwrite ob (- ol) (rt_spset_thrs 1 ol (snd (rt_spread 1 p))))).
Proof.
  run_driver. destruct (rt_spread 1 p) as [ack p1]. simpl. intros ->. simpl.
  destruct (rt_spwrite ob (- ol) (rt_spset_thrs 1 ol p1)) as [r p2].
  simpl. intros ->. reflexivity.
Qed.

(** X15. For every write: when the call is accepted, the device answers
    ['O'] and the port takes the whole payload, the four steps (call,
    transmit buffer free, one byte receivable, transmit buffer free) end
    in [WAITING_END_ACK]; the inbound side is untouched, and after the
    opcode the port was asked, in this order, to read one byte, to set the
    thresholds to (1, 11) and to write the outbound buffer all-or-nothing
    with size -11. *)
Theorem write_handshake {T : Type} `{Serial T} (host : byte_order)
    (index subindex nodeid data rx1 tx2 rx3 : Z) (w : world T) :
  result (write_object host index subindex nodeid data) w = SUCCESS ->
  fst (rt_spread 1
         (port (exec (write_object host index subindex nodeid data) w)))
    = 79 ->
  fst (rt_spwrite
         (outbound_payload
            (drv (exec (write_object host index subindex nodeid data) w)))
         (- 11)
         (rt_spset_thrs 1 11
            (snd (rt_spread 1
                    (port (exec (write_object host index subindex nodeid
                                   data) w))))))
    = 0 ->
  let w1 := exec (write_object host index subindex nodeid data) w in
  exec (run host
          [WriteObject index subindex nodeid data; SerialCallback rx1 14;
           SerialCallback 1 tx2; SerialCallback rx3 14]) w =
  World (Driver WAITING_END_ACK
           (outbound_payload (drv w1)) (inbound_payload (drv w))
           11 (inbound_payload_len (drv w)))
        (snd (rt_spwrite (outbound_payload (drv w1)) (- 11)
                (rt_spset_thrs 1 11 (snd (rt_spread 1 (port w1)))))).
Proof.
  intros Hres.
  destruct (write_object_success_inv _ _ _ _ _ _ Hres) as [Hst Hwr].
  rewrite !exec_run_cons, exec_deliver_write, !exec_deliver_callback.
  assert (Hw1 : exec (write_object host index subindex nodeid data) w =
                World (Driver SENDING_OPCODE
                         (framed host index subindex nodeid data
                            (outbound_payload (drv w)))
                         (inbound_payload (drv w)) 11
                         (inbound_payload_len (drv w)))
                      (snd (rt_spwrite [0x11] 1 (port w)))).
  { unfold exec. now rewrite write_object_accepted. }
  rewrite Hw1. cbn [snd drv port outbound_payload]. intros Hack Htaken.
  rewrite (proj1 (callback_sent _ _ _ _ _ _)).
  rewrite callback_begin_ack_taken by assumption.
  rewrite (proj2 (callback_sent _ _ _ _ _ _)).
  reflexivity.
Qed.

Lemma write_handshake_witness :
  exec (run BigEndian
          [WriteObject 0x60ff 0 2 0xfffffc18; SerialCallback 0 14;
           SerialCallback 1 14; SerialCallback 1 14]) (loaded [79; 79]) =
  World (Driver WAITING_END_ACK
           [3; 0xff; 0x60; 0; 2; 0x18; 0xfc; 0xff; 0xff; 0x00; 0x97;
            0; 0; 0]
           (replicate 14 0) 11 0)
        (Script [] [79]
           [([0x11], 1);
            ([3; 0xff; 0x60; 0; 2; 0x18; 0xfc; 0xff; 0xff; 0x00; 0x97],
             - 11)]
           [(1, 11)]).
Proof.
  refine (write_handshake BigEndian 0x60ff 0 2 0xfffffc18 0 14 1
            (loaded [79; 79]) _ _ _); reflexivity.
Defined.

(** ** Module load and unload *)

(** Case analysis over the paths of [epos_init]. *)
Ltac init_paths hdr prm k :=
  unfold epos_init;
  destruct (rt_spopen (ser_port prm) (baud prm) DATABITS STOPBITS
              (RT_SP_PARITY_NONE hdr) (RT_SP_NO_HAND_SHAKE hdr)
              (RT_SP_FIFO_SIZE_14 hdr) (serial k)) as [a p1];
  cbn [fst snd];
  destruct (Z.eqb_spec a (- ENODEV hdr));
  [|destruct (Z.eqb_spec a (- EINVAL hdr));
    [|destruct (Z.eqb_spec a (- EADDRINUSE hdr));
      [|destruct (rt_spset_callback_fun (ser_port prm) 1 1 p1) as [b p2];
        cbn [fst snd];
        destruct (Z.eqb_spec b (- EINVAL hdr));
        [destruct (rt_spclose (ser_port prm) _) as [c p3]|]]]];
  cbn [fst snd serial printk_log errmsg].

(** X16. With positive error numbers, [epos_init] returns 0 or one of
    [-ENODEV], [-EINVAL], [-EADDRINUSE], and it returns 0 exactly when
    [rt_spopen] answered none of these three and
    [rt_spset_callback_fun] did not answer [-EINVAL]: any other failure
    status of either call is taken for success.  The kernel log grows by
    exactly one line when the load fails and is unchanged when it
    succeeds. *)
Theorem epos_init_status {T : Type} `{SerialSetup T}
    (hdr : header_consts) (prm : module_params) (k : kernel T) :
  0 < ENODEV hdr -> 0 < EINVAL hdr -> 0 < EADDRINUSE hdr ->
  let opening :=
    rt_spopen (ser_port prm) (baud prm) DATABITS STOPBITS
      (RT_SP_PARITY_NONE hdr) (RT_SP_NO_HAND_SHAKE hdr)
      (RT_SP_FIFO_SIZE_14 hdr) (serial k) in
  let registering := rt_spset_callback_fun (ser_port prm) 1 1 (snd opening) in
  let status := fst (epos_init hdr prm k) in
  let log' := printk_log (snd (epos_init hdr prm k)) in
  (status = 0 \/ status = - ENODEV hdr \/ status = - EINVAL hdr \/
   status = - EADDRINUSE hdr) /\
  (status = 0 <->
     fst opening <> - ENODEV hdr /\ fst opening <> - EINVAL hdr /\
     fst opening <> - EADDRINUSE hdr /\ fst registering <> - EINVAL hdr) /\
  (status = 0 -> log' = printk_log k) /\
  (status <> 0 -> length log' = S (length (printk_log k)) /\
                  take (length (printk_log k)) log' = printk_log k).
Proof.
  intros Hnodev Hinval Hinuse. cbv zeta. init_paths hdr prm k;
    rewrite ?length_app, ?take_app_length; cbn [length];
    (split; [|split; [|split]]);
    try (intuition (try congruence; try lia); fail).
Qed.

Lemma epos_init_status_witness :
  let k := Kernel (SetupScript (- 12) (- 19) 0 0 0) [] in
  let opening :=
    rt_spopen (ser_port default_params) (baud default_params)
      DATABITS STOPBITS
      (RT_SP_PARITY_NONE linux_consts) (RT_SP_NO_HAND_SHAKE linux_consts)
      (RT_SP_FIFO_SIZE_14 linux_consts) (serial k) in
  let registering :=
    rt_spset_callback_fun (ser_port default_params) 1 1 (snd opening) in
  let status := fst (epos_init linux_consts default_params k) in
  let log' := printk_log (snd (epos_init linux_consts default_params k)) in
  (status = 0 \/ status = - ENODEV linux_consts \/
   status = - EINVAL linux_consts \/ status = - EADDRINUSE linux_consts) /\
  (status = 0 <->
     fst opening <> - ENODEV linux_consts /\
     fst opening <> - EINVAL linux_consts /\
     fst opening <> - EADDRINUSE linux_consts /\
     fst registering <> - EINVAL linux_consts) /\
  (status = 0 -> log' = printk_log k) /\
  (status <> 0 -> length log' = S (length (printk_log k)) /\
                  take (length (printk_log k)) log' = printk_log k).
Proof.
  refine (epos_init_status linux_consts default_params
            (Kernel (SetupScript (- 12) (- 19) 0 0 0) []) _ _ _);
    reflexivity.
Defined.

(** A load on which [rt_spopen] fails with a status the module does not
    list (here -12) and the callback registration fails with [-ENODEV]:
    the module reports success and logs nothing. *)
Example epos_init_unlisted_failures :
  epos_init linux_consts default_params
    (Kernel (SetupScript (- 12) (- 19) 0 0 0) []) =
  (0, Kernel (SetupScript (- 12) (- 19) 0 1 0) []).
Proof. reflexivity. Qed.

(** X17. What [epos_init] leaves of the port.  When [rt_spopen] answers
    one of the three listed errors nothing else is called.  When the
    callback registration answers [-EINVAL] the port just opened is
    closed again, after the message is logged, and that status is
    returned.  Otherwise the port is left as the registration left it,
    open, and never closed. *)
Theorem epos_init_port {T : Type} `{SerialSetup T}
    (hdr : header_consts) (prm : module_params) (k : kernel T) :
  let opening :=
    rt_spopen (ser_port prm) (baud prm) DATABITS STOPBITS
      (RT_SP_PARITY_NONE hdr) (RT_SP_NO_HAND_SHAKE hdr)
      (RT_SP_FIFO_SIZE_14 hdr) (serial k) in
  let registering := rt_spset_callback_fun (ser_port prm) 1 1 (snd opening) in
  let listed :=
    fst opening = - ENODEV hdr \/ fst opening = - EINVAL hdr \/
    fst opening = - EADDRINUSE hdr in
  let port' := serial (snd (epos_init hdr prm k)) in
  (listed ->
     port' = snd opening /\ fst (epos_init hdr prm k) = fst opening) /\
  (~ listed -> fst registering = - EINVAL hdr ->
     port' = snd (rt_spclose (ser_port prm) (snd registering)) /\
     fst (epos_init hdr prm k) = - EINVAL hdr) /\
  (~ listed -> fst registering <> - EINVAL hdr ->
     port' = snd registering).
Proof.
  cbv zeta. init_paths hdr prm k;
    (split; [|split]); try (intuition congruence; fail).
Qed.

Lemma epos_init_port_witness :
  let k := Kernel (SetupScript 0 (- 22) 0 0 0) [] in
  serial (snd (epos_init linux_consts default_params k))
    = SetupScript 0 (- 22) 0 1 1 /\
  fst (epos_init linux_consts default_params k) = - 22.
Proof.
  destruct (epos_init_port linux_consts default_params
              (Kernel (SetupScript 0 (- 22) 0 0 0) []))
    as (_ & Hclosed & _).
  apply Hclosed.
  - vm_compute. intros [Hl|[Hl|Hl]]; discriminate Hl.
  - reflexivity.
Defined.

(** X18. [epos_init] and [epos_cleanup] only append to the kernel log, at
    most one line each, and every line they add is the prefix
    ["EPOS driver: "], a message and a newline; [epos_cleanup] always
    calls [rt_spclose], once, and logs exactly when it answers
    [-ENODEV]. *)
Theorem module_log_lines {T : Type} `{SerialSetup T}
    (hdr : header_consts) (prm : module_params) (k : kernel T) :
  let line msg :=
    String.append "EPOS driver: "%string (String.append msg newline) in
  let added log' :=
    log' = printk_log k \/ exists msg, log' = printk_log k ++ [line msg] in
  added (printk_log (snd (epos_init hdr prm k))) /\
  added (printk_log (epos_cleanup hdr prm k)) /\
  serial (epos_cleanup hdr prm k) = snd (rt_spclose (ser_port prm) (serial k)) /\
  (printk_log (epos_cleanup hdr prm k) <> printk_log k <->
   fst (rt_spclose (ser_port prm) (serial k)) = - ENODEV hdr).
Proof.
  cbv zeta. split; [|split; [|split]].
  - init_paths hdr prm k; eauto.
  - unfold epos_cleanup.
    destruct (rt_spclose (ser_port prm) (serial k)) as [c p1].
    destruct (c =? - ENODEV hdr); cbn [printk_log errmsg]; eauto.
  - unfold epos_cleanup.
    destruct (rt_spclose (ser_port prm) (serial k)) as [c p1].
    destruct (c =? - ENODEV hdr); reflexivity.
  - unfold epos_cleanup.
    destruct (rt_spclose (ser_port prm) (serial k)) as [c p1].
    cbn [fst]. destruct (Z.eqb_spec c (- ENODEV hdr));
      cbn [printk_log errmsg serial].
    + split; [auto|]. intros _ Heq.
      apply (f_equal (@length String.string)) in Heq.
      rewrite length_app in Heq. cbn [length] in Heq. lia.
    + split; [congruence | contradiction].
Qed.
